(** * emotional-canvas: the interactive creation state machine

    A shallow embedding of the event handlers and of the per-frame callback
    of the [Scene] component (and of [updateRGBDisplay] from
    [ui-helpers.js]), with the properties of the hold-to-size,
    hold-to-roundness, colour-cycling, camera-orbit and audio-volume rules.

    Conventions of the embedding.
    - A JavaScript number is an exact rational ([Q]); the arithmetic is the
      source's, without IEEE rounding.  Values that the code only ever keeps
      integral (the four colour channels, the result of [Math.floor]) are
      [Z]; [Math.floor] is [Qfloor] and the remainder operator [%] is
      [Z.rem] (the sign follows the dividend).
    - [performance.now()], the clock's elapsed time and the frame delta are
      arguments of the handler that reads them.
    - React state is one record, [Scene]; a [setX] call is a record update.
    - three.js is an external collaborator: the Cartesian/spherical
      conversions, the distance between two points and the raycaster's
      answers are taken as parameters. *)

From Stdlib Require Import ZArith QArith Qminmax Qround Qabs Lia Lqa List String Bool.
Import ListNotations.

Local Open Scope Q_scope.

(** ** Data model *)

(** [THREE.Vector3]. *)
Record Vector3 := mkVector3 { x : Q; y : Q; z : Q }.

(** [THREE.Plane]: the points [p] with [normal . p + constant = 0]. *)
Record Plane := mkPlane { normal : Vector3; constant : Q }.

(** [THREE.Spherical]; [phi] is the polar angle, [theta] the azimuth. *)
Record Spherical := mkSpherical { radius : Q; phi : Q; theta : Q }.

(** What a mouse event's raycast can answer: the hit points on the water
    mesh, nearest first ([raycaster.intersectObject(water)]), and the
    intersection of the ray with a plane ([raycaster.ray.intersectPlane]). *)
Record Raycaster := mkRaycaster {
  intersectObject_water : list Vector3;
  ray_intersectPlane : Plane -> option Vector3
}.

Module Channel.
(** One entry of [keyHoldState]. *)
Record Hold := mkHold { isHolding : bool; startTime : Q }.

(** The keys "1" to "4", the indices of [keyHoldState]. *)
Inductive Key := K1 | K2 | K3 | K4.

Definition of_key (key : string) : option Key :=
  if String.eqb key "1" then Some K1
  else if String.eqb key "2" then Some K2
  else if String.eqb key "3" then Some K3
  else if String.eqb key "4" then Some K4
  else None.
End Channel.

Record KeyHoldState := mkKeyHoldState {
  hold1 : Channel.Hold;
  hold2 : Channel.Hold;
  hold3 : Channel.Hold;
  hold4 : Channel.Hold
}.

(** [prev[key]] *)
Definition get_hold (k : Channel.Key) (s : KeyHoldState) : Channel.Hold :=
  match k with
  | Channel.K1 => hold1 s
  | Channel.K2 => hold2 s
  | Channel.K3 => hold3 s
  | Channel.K4 => hold4 s
  end.

(** [{ ...prev, [key]: h }] *)
Definition set_hold (k : Channel.Key) (h : Channel.Hold) (s : KeyHoldState)
  : KeyHoldState :=
  match k with
  | Channel.K1 => mkKeyHoldState h (hold2 s) (hold3 s) (hold4 s)
  | Channel.K2 => mkKeyHoldState (hold1 s) h (hold3 s) (hold4 s)
  | Channel.K3 => mkKeyHoldState (hold1 s) (hold2 s) h (hold4 s)
  | Channel.K4 => mkKeyHoldState (hold1 s) (hold2 s) (hold3 s) h
  end.

(** [globalRGB] *)
Record RGB := mkRGB { r : Z; g : Z; b : Z; a : Z }.

Definition get_channel (k : Channel.Key) (c : RGB) : Z :=
  match k with
  | Channel.K1 => r c
  | Channel.K2 => g c
  | Channel.K3 => b c
  | Channel.K4 => a c
  end.

Record ArrowKeys := mkArrowKeys {
  up : bool; down : bool; left : bool; right : bool
}.

(** The two shape classes a cube or the preview can have. *)
Inductive Geometry :=
| BoxGeometry (width height depth : Q)
| RoundedBoxGeometry (width height depth : Q) (segments : Z) (radius : Q).

(** A [THREE.Mesh] with a [MeshStandardMaterial] and the [userData] the
    scene puts on it. *)
Record Mesh := mkMesh {
  geometry : Geometry;
  color : Q * Q * Q;
  opacity : Q;
  position : Vector3;
  rotation_x : Q;
  rotation_z : Q;
  spawnTime : Q;
  baseY : Q;
  isPreview : bool
}.

(** The camera: where it is and the point it was last aimed at by
    [lookAt]. *)
Record Camera := mkCamera { cam_position : Vector3; cam_lookAt : Vector3 }.

(** The four pill elements; [None] is a null element, [Some n] a pill
    whose text shows the number [n]. *)
Record Pills := mkPills {
  pill_r : option Z; pill_g : option Z; pill_b : option Z; pill_a : option Z
}.

(** The state of the [Scene] component, with the module-level display
    handles [rgbDisplay] and [rgbPills]. *)
Record Scene := mkScene {
  isHolding : bool;
  holdStartTime : Q;
  holdStartPosition : option Vector3;
  isSpacebarHeld : bool;
  maxRoundnessAchieved : Q;
  arrowKeys : ArrowKeys;
  globalRGB : RGB;
  keyHoldState : KeyHoldState;
  spawnedCubes : list Mesh;
  previewRef : option Mesh;
  camera : Camera;
  (** the volume last given to the positional audio; [None] while
      [positionalAudioRef.current] is null *)
  positionalAudio : option Q;
  (** [rgbDisplay] is [true] once the display element exists *)
  rgbDisplay : bool;
  rgbPills : Pills
}.

(** The values of the [useState] initialisers and of the camera effect. *)
Definition initialScene : Scene :=
  {| isHolding := false;
     holdStartTime := 0;
     holdStartPosition := None;
     isSpacebarHeld := false;
     maxRoundnessAchieved := 0;
     arrowKeys := mkArrowKeys false false false false;
     globalRGB := mkRGB 255 255 255 255;
     keyHoldState :=
       mkKeyHoldState (Channel.mkHold false 0) (Channel.mkHold false 0)
                      (Channel.mkHold false 0) (Channel.mkHold false 0);
     spawnedCubes := [];
     previewRef := None;
     camera := mkCamera (mkVector3 30 50 200) (mkVector3 0 10 0);
     positionalAudio := Some 1;
     rgbDisplay := true;
     rgbPills := mkPills (Some 255%Z) (Some 255%Z) (Some 255%Z) (Some 255%Z) |}.

(** ** State updates ([setX] calls) *)

Definition set_isHolding (v : bool) (st : Scene) : Scene :=
  {| isHolding := v;
     holdStartTime := holdStartTime st;
     holdStartPosition := holdStartPosition st;
     isSpacebarHeld := isSpacebarHeld st;
     maxRoundnessAchieved := maxRoundnessAchieved st;
     arrowKeys := arrowKeys st;
     globalRGB := globalRGB st;
     keyHoldState := keyHoldState st;
     spawnedCubes := spawnedCubes st;
     previewRef := previewRef st;
     camera := camera st;
     positionalAudio := positionalAudio st;
     rgbDisplay := rgbDisplay st;
     rgbPills := rgbPills st |}.

Definition set_holdStartTime (v : Q) (st : Scene) : Scene :=
  {| isHolding := isHolding st;
     holdStartTime := v;
     holdStartPosition := holdStartPosition st;
     isSpacebarHeld := isSpacebarHeld st;
     maxRoundnessAchieved := maxRoundnessAchieved st;
     arrowKeys := arrowKeys st;
     globalRGB := globalRGB st;
     keyHoldState := keyHoldState st;
     spawnedCubes := spawnedCubes st;
     previewRef := previewRef st;
     camera := camera st;
     positionalAudio := positionalAudio st;
     rgbDisplay := rgbDisplay st;
     rgbPills := rgbPills st |}.

Definition set_holdStartPosition (v : option Vector3) (st : Scene) : Scene :=
  {| isHolding := isHolding st;
     holdStartTime := holdStartTime st;
     holdStartPosition := v;
     isSpacebarHeld := isSpacebarHeld st;
     maxRoundnessAchieved := maxRoundnessAchieved st;
     arrowKeys := arrowKeys st;
     globalRGB := globalRGB st;
     keyHoldState := keyHoldState st;
     spawnedCubes := spawnedCubes st;
     previewRef := previewRef st;
     camera := camera st;
     positionalAudio := positionalAudio st;
     rgbDisplay := rgbDisplay st;
     rgbPills := rgbPills st |}.

Definition set_isSpacebarHeld (v : bool) (st : Scene) : Scene :=
  {| isHolding := isHolding st;
     holdStartTime := holdStartTime st;
     holdStartPosition := holdStartPosition st;
     isSpacebarHeld := v;
     maxRoundnessAchieved := maxRoundnessAchieved st;
     arrowKeys := arrowKeys st;
     globalRGB := globalRGB st;
     keyHoldState := keyHoldState st;
     spawnedCubes := spawnedCubes st;
     previewRef := previewRef st;
     camera := camera st;
     positionalAudio := positionalAudio st;
     rgbDisplay := rgbDisplay st;
     rgbPills := rgbPills st |}.

Definition set_maxRoundnessAchieved (v : Q) (st : Scene) : Scene :=
  {| isHolding := isHolding st;
     holdStartTime := holdStartTime st;
     holdStartPosition := holdStartPosition st;
     isSpacebarHeld := isSpacebarHeld st;
     maxRoundnessAchieved := v;
     arrowKeys := arrowKeys st;
     globalRGB := globalRGB st;
     keyHoldState := keyHoldState st;
     spawnedCubes := spawnedCubes st;
     previewRef := previewRef st;
     camera := camera st;
     positionalAudio := positionalAudio st;
     rgbDisplay := rgbDisplay st;
     rgbPills := rgbPills st |}.

Definition set_arrowKeys (v : ArrowKeys) (st : Scene) : Scene :=
  {| isHolding := isHolding st;
     holdStartTime := holdStartTime st;
     holdStartPosition := holdStartPosition st;
     isSpacebarHeld := isSpacebarHeld st;
     maxRoundnessAchieved := maxRoundnessAchieved st;
     arrowKeys := v;
     globalRGB := globalRGB st;
     keyHoldState := keyHoldState st;
     spawnedCubes := spawnedCubes st;
     previewRef := previewRef st;
     camera := camera st;
     positionalAudio := positionalAudio st;
     rgbDisplay := rgbDisplay st;
     rgbPills := rgbPills st |}.

Definition set_globalRGB (v : RGB) (st : Scene) : Scene :=
  {| isHolding := isHolding st;
     holdStartTime := holdStartTime st;
     holdStartPosition := holdStartPosition st;
     isSpacebarHeld := isSpacebarHeld st;
     maxRoundnessAchieved := maxRoundnessAchieved st;
     arrowKeys := arrowKeys st;
     globalRGB := v;
     keyHoldState := keyHoldState st;
     spawnedCubes := spawnedCubes st;
     previewRef := previewRef st;
     camera := camera st;
     positionalAudio := positionalAudio st;
     rgbDisplay := rgbDisplay st;
     rgbPills := rgbPills st |}.

Definition set_keyHoldState (v : KeyHoldState) (st : Scene) : Scene :=
  {| isHolding := isHolding st;
     holdStartTime := holdStartTime st;
     holdStartPosition := holdStartPosition st;
     isSpacebarHeld := isSpacebarHeld st;
     maxRoundnessAchieved := maxRoundnessAchieved st;
     arrowKeys := arrowKeys st;
     globalRGB := globalRGB st;
     keyHoldState := v;
     spawnedCubes := spawnedCubes st;
     previewRef := previewRef st;
     camera := camera st;
     positionalAudio := positionalAudio st;
     rgbDisplay := rgbDisplay st;
     rgbPills := rgbPills st |}.

Definition set_spawnedCubes (v : list Mesh) (st : Scene) : Scene :=
  {| isHolding := isHolding st;
     holdStartTime := holdStartTime st;
     holdStartPosition := holdStartPosition st;
     isSpacebarHeld := isSpacebarHeld st;
     maxRoundnessAchieved := maxRoundnessAchieved st;
     arrowKeys := arrowKeys st;
     globalRGB := globalRGB st;
     keyHoldState := keyHoldState st;
     spawnedCubes := v;
     previewRef := previewRef st;
     camera := camera st;
     positionalAudio := positionalAudio st;
     rgbDisplay := rgbDisplay st;
     rgbPills := rgbPills st |}.

Definition set_previewRef (v : option Mesh) (st : Scene) : Scene :=
  {| isHolding := isHolding st;
     holdStartTime := holdStartTime st;
     holdStartPosition := holdStartPosition st;
     isSpacebarHeld := isSpacebarHeld st;
     maxRoundnessAchieved := maxRoundnessAchieved st;
     arrowKeys := arrowKeys st;
     globalRGB := globalRGB st;
     keyHoldState := keyHoldState st;
     spawnedCubes := spawnedCubes st;
     previewRef := v;
     camera := camera st;
     positionalAudio := positionalAudio st;
     rgbDisplay := rgbDisplay st;
     rgbPills := rgbPills st |}.

Definition set_camera (v : Camera) (st : Scene) : Scene :=
  {| isHolding := isHolding st;
     holdStartTime := holdStartTime st;
     holdStartPosition := holdStartPosition st;
     isSpacebarHeld := isSpacebarHeld st;
     maxRoundnessAchieved := maxRoundnessAchieved st;
     arrowKeys := arrowKeys st;
     globalRGB := globalRGB st;
     keyHoldState := keyHoldState st;
     spawnedCubes := spawnedCubes st;
     previewRef := previewRef st;
     camera := v;
     positionalAudio := positionalAudio st;
     rgbDisplay := rgbDisplay st;
     rgbPills := rgbPills st |}.

Definition set_positionalAudio (v : option Q) (st : Scene) : Scene :=
  {| isHolding := isHolding st;
     holdStartTime := holdStartTime st;
     holdStartPosition := holdStartPosition st;
     isSpacebarHeld := isSpacebarHeld st;
     maxRoundnessAchieved := maxRoundnessAchieved st;
     arrowKeys := arrowKeys st;
     globalRGB := globalRGB st;
     keyHoldState := keyHoldState st;
     spawnedCubes := spawnedCubes st;
     previewRef := previewRef st;
     camera := camera st;
     positionalAudio := v;
     rgbDisplay := rgbDisplay st;
     rgbPills := rgbPills st |}.

Definition set_rgbPills (v : Pills) (st : Scene) : Scene :=
  {| isHolding := isHolding st;
     holdStartTime := holdStartTime st;
     holdStartPosition := holdStartPosition st;
     isSpacebarHeld := isSpacebarHeld st;
     maxRoundnessAchieved := maxRoundnessAchieved st;
     arrowKeys := arrowKeys st;
     globalRGB := globalRGB st;
     keyHoldState := keyHoldState st;
     spawnedCubes := spawnedCubes st;
     previewRef := previewRef st;
     camera := camera st;
     positionalAudio := positionalAudio st;
     rgbDisplay := rgbDisplay st;
     rgbPills := v |}.

(** ** Keyboard handlers *)

(** The hold-to-delta rule shared, textually, by [handleKeyUp] and by the
    four branches of [updateRGBDisplay]:
    [Math.floor((holdDuration / maxHold) * 255)] with [maxHold = 3000].
    The floor is taken of the exact product; the program floors its
    binary64 value, which differs by one at the durations whose exact
    product lies within a rounding error of an integer.  The sign of the
    delta, its growth with the duration and its values at the multiples
    of 3000 ms are the same; the statements below rest on those. *)
Definition colorChange (holdDuration : Q) : Z :=
  let maxHold := 3000 in
  Qfloor ((holdDuration / maxHold) * 255).

Definition handleKeyDown (key : string) (now : Q) (st : Scene) : Scene :=
  let st :=
    if String.eqb key "ArrowUp" then
      let prev := arrowKeys st in
      set_arrowKeys (mkArrowKeys true (down prev) (left prev) (right prev)) st
    else st in
  let st :=
    if String.eqb key "ArrowDown" then
      let prev := arrowKeys st in
      set_arrowKeys (mkArrowKeys (up prev) true (left prev) (right prev)) st
    else st in
  let st :=
    if String.eqb key "ArrowLeft" then
      let prev := arrowKeys st in
      set_arrowKeys (mkArrowKeys (up prev) (down prev) true (right prev)) st
    else st in
  let st :=
    if String.eqb key "ArrowRight" then
      let prev := arrowKeys st in
      set_arrowKeys (mkArrowKeys (up prev) (down prev) (left prev) true) st
    else st in
  let st :=
    if String.eqb key " " || String.eqb key "Spacebar"
    then set_isSpacebarHeld true st
    else st in
  match Channel.of_key key with
  | Some k =>
      let prev := keyHoldState st in
      if negb (Channel.isHolding (get_hold k prev)) then
        set_keyHoldState (set_hold k (Channel.mkHold true now) prev) st
      else st
  | None => st
  end.

Definition handleKeyUp (key : string) (now : Q) (st : Scene) : Scene :=
  let st :=
    if String.eqb key "ArrowUp" then
      let prev := arrowKeys st in
      set_arrowKeys (mkArrowKeys false (down prev) (left prev) (right prev)) st
    else st in
  let st :=
    if String.eqb key "ArrowDown" then
      let prev := arrowKeys st in
      set_arrowKeys (mkArrowKeys (up prev) false (left prev) (right prev)) st
    else st in
  let st :=
    if String.eqb key "ArrowLeft" then
      let prev := arrowKeys st in
      set_arrowKeys (mkArrowKeys (up prev) (down prev) false (right prev)) st
    else st in
  let st :=
    if String.eqb key "ArrowRight" then
      let prev := arrowKeys st in
      set_arrowKeys (mkArrowKeys (up prev) (down prev) (left prev) false) st
    else st in
  let st :=
    if String.eqb key " " || String.eqb key "Spacebar"
    then set_isSpacebarHeld false st
    else st in
  match Channel.of_key key with
  | Some k =>
      let prev := keyHoldState st in
      let holdDuration := now - Channel.startTime (get_hold k prev) in
      let colorChange := colorChange holdDuration in
      let currentRGB := globalRGB st in
      let newRGB :=
        match k with
        | Channel.K1 =>
            mkRGB (Z.rem (r currentRGB + colorChange) 256)
                  (g currentRGB) (b currentRGB) (a currentRGB)
        | Channel.K2 =>
            mkRGB (r currentRGB)
                  (Z.rem (g currentRGB + colorChange) 256)
                  (b currentRGB) (a currentRGB)
        | Channel.K3 =>
            mkRGB (r currentRGB) (g currentRGB)
                  (Z.rem (b currentRGB + colorChange) 256)
                  (a currentRGB)
        | Channel.K4 =>
            mkRGB (r currentRGB) (g currentRGB) (b currentRGB)
                  (Z.rem (a currentRGB + colorChange) 256)
        end in
      set_keyHoldState (set_hold k (Channel.mkHold false 0) prev)
                       (set_globalRGB newRGB st)
  | None => st
  end.

(** ** The colour display ([updateRGBDisplay], ui-helpers.js) *)

(** The preview values [previewR], [previewG], [previewB], [previewA]. *)
Definition previewRGB (globalRGB : RGB) (keyHoldState : KeyHoldState)
  (now : Q) : RGB :=
  let previewR :=
    if Channel.isHolding (hold1 keyHoldState) then
      let holdDuration := now - Channel.startTime (hold1 keyHoldState) in
      Z.rem (r globalRGB + colorChange holdDuration) 256
    else r globalRGB in
  let previewG :=
    if Channel.isHolding (hold2 keyHoldState) then
      let holdDuration := now - Channel.startTime (hold2 keyHoldState) in
      Z.rem (g globalRGB + colorChange holdDuration) 256
    else g globalRGB in
  let previewB :=
    if Channel.isHolding (hold3 keyHoldState) then
      let holdDuration := now - Channel.startTime (hold3 keyHoldState) in
      Z.rem (b globalRGB + colorChange holdDuration) 256
    else b globalRGB in
  let previewA :=
    if Channel.isHolding (hold4 keyHoldState) then
      let holdDuration := now - Channel.startTime (hold4 keyHoldState) in
      Z.rem (a globalRGB + colorChange holdDuration) 256
    else a globalRGB in
  mkRGB previewR previewG previewB previewA.

Definition updateRGBDisplay (rgbDisplay : bool) (rgbPills : Pills)
  (globalRGB : RGB) (keyHoldState : KeyHoldState) (now : Q) : Pills :=
  if rgbDisplay then
    let p := previewRGB globalRGB keyHoldState now in
    mkPills (match pill_r rgbPills with Some _ => Some (r p) | None => None end)
            (match pill_g rgbPills with Some _ => Some (g p) | None => None end)
            (match pill_b rgbPills with Some _ => Some (b p) | None => None end)
            (match pill_a rgbPills with Some _ => Some (a p) | None => None end)
  else rgbPills.

(** ** Mouse handlers *)

(** [spawnCube(position, size, roundness)]; [now] is the reading of
    [performance.now()] that stamps the cube.  The colour and the opacity
    are read from the scene's [globalRGB]; in the program they are those
    of the render the mouse handlers were last bound in, which is behind
    by a colour committed during the session.  Shape, position, base
    height and spawn time do not depend on it, and no property below
    rests on which colour a new cube gets. *)
Definition spawnCube (position : Vector3) (size roundness : Q) (now : Q)
  (st : Scene) : Scene :=
  let geometry :=
    if Qlt_le_dec 0 roundness
    then RoundedBoxGeometry size size size 8 (Qmin roundness (size / 2))
    else BoxGeometry size size size in
  let globalRGB := globalRGB st in
  let color :=
    (inject_Z (r globalRGB) / 255,
     inject_Z (g globalRGB) / 255,
     inject_Z (b globalRGB) / 255) in
  let cube :=
    {| geometry := geometry;
       color := color;
       opacity := inject_Z (a globalRGB) / 255;
       position := mkVector3 (x position) (y position + size / 2) (z position);
       rotation_x := 0;
       rotation_z := 0;
       spawnTime := now * 0.001;
       baseY := y position + size / 2;
       isPreview := false |} in
  set_spawnedCubes (spawnedCubes st ++ [cube]) st.

(** The anchor of a new session: the first hit on the water, else the hit
    on the plane [new THREE.Plane(new THREE.Vector3(0, 1, 0), 0)], else
    [new THREE.Vector3(0, 0, 0)]. *)
Definition handleMouseDown_anchor (raycaster : Raycaster) : Vector3 :=
  match intersectObject_water raycaster with
  | point :: _ => point
  | [] =>
      let plane := mkPlane (mkVector3 0 1 0) 0 in
      match ray_intersectPlane raycaster plane with
      | Some intersectionPoint => intersectionPoint
      | None => mkVector3 0 0 0
      end
  end.

Definition handleMouseDown (button : Z) (raycaster : Raycaster) (now : Q)
  (st : Scene) : Scene :=
  if negb (button =? 0)%Z then st
  else
    let st := set_isHolding true st in
    let st := set_holdStartTime now st in
    let st := set_maxRoundnessAchieved 0 st in
    set_holdStartPosition (Some (handleMouseDown_anchor raycaster)) st.

(** The size [handleMouseUp] computes from the hold duration. *)
Definition handleMouseUp_size (holdDuration : Q) : Q :=
  let minSize := 5 in
  let maxSize := 50 in
  let maxHold := 3000 in
  let normalizedHold := Qmin holdDuration maxHold / maxHold in
  minSize + (maxSize - minSize) * normalizedHold.

Definition handleMouseUp (button : Z) (now : Q) (st : Scene) : Scene :=
  if negb (button =? 0)%Z || negb (isHolding st) then st
  else
    let holdDuration := now - holdStartTime st in
    let size := handleMouseUp_size holdDuration in
    let roundness := maxRoundnessAchieved st in
    let holdStartPosition := holdStartPosition st in
    let st := set_isHolding false st in
    match holdStartPosition with
    | Some position => spawnCube position size roundness now st
    | None => st
    end.

(** ** The per-frame callback *)

(** [Math.PI] *)
Definition Math_PI : Q := 3.141592653589793.

(** The volume handed to [setVolume] at a camera-to-target distance. *)
Definition useFrame_volume (distance : Q) : Q :=
  let minDistance := 40 in
  let maxDistance := 1000 in
  let normalizedDistance :=
    Qmax 0 (Qmin 1 ((distance - minDistance) / (maxDistance - minDistance))) in
  let volume := 1.0 - normalizedDistance * 0.9 in
  Qmax 0.2 (Qmin 1.0 volume).

(** The arrow-key updates of the spherical offset, between
    [spherical.setFromVector3(offset)] and
    [offset.setFromSpherical(spherical)]. *)
Definition useFrame_spherical (arrowKeys : ArrowKeys) (delta : Q)
  (spherical : Spherical) : Spherical :=
  let rotationSpeed := 1.2 in
  let spherical :=
    if left arrowKeys
    then mkSpherical (radius spherical) (phi spherical)
                     (theta spherical - rotationSpeed * delta)
    else spherical in
  let spherical :=
    if right arrowKeys
    then mkSpherical (radius spherical) (phi spherical)
                     (theta spherical + rotationSpeed * delta)
    else spherical in
  let spherical :=
    if up arrowKeys
    then mkSpherical (radius spherical)
                     (Qmax 0.1 (Qmin (Math_PI * 0.495)
                                     (phi spherical - rotationSpeed * delta)))
                     (theta spherical)
    else spherical in
  let spherical :=
    if down arrowKeys
    then mkSpherical (radius spherical)
                     (Qmax 0.1 (Qmin (Math_PI * 0.495)
                                     (phi spherical + rotationSpeed * delta)))
                     (theta spherical)
    else spherical in
  spherical.

(** The live size of the preview. *)
Definition useFrame_currentSize (holdDuration : Q) : Q :=
  let minSize := 5 in
  let maxSize := 50 in
  let maxHold := 3000 in
  let normalizedHold := Qmin holdDuration maxHold / maxHold in
  minSize + (maxSize - minSize) * normalizedHold.

(** The live roundness of the preview, [currentRoundness]. *)
Definition useFrame_currentRoundness (isSpacebarHeld : bool)
  (maxRoundnessAchieved : Q) (holdDuration : Q) : Q :=
  let currentSize := useFrame_currentSize holdDuration in
  if isSpacebarHeld then
    let maxRoundnessHold := 3000 in
    let normalizedRoundness :=
      Qmin holdDuration maxRoundnessHold / maxRoundnessHold in
    (currentSize / 2) * normalizedRoundness
  else maxRoundnessAchieved.

Definition subVectors (p q : Vector3) : Vector3 :=
  mkVector3 (x p - x q) (y p - y q) (z p - z q).

Definition addVectors (p q : Vector3) : Vector3 :=
  mkVector3 (x p + x q) (y p + y q) (z p + z q).

Section Frame.

(** three.js and [Math]: [Vector3.distanceTo],
    [Spherical.setFromVector3], [Vector3.setFromSpherical], [Math.sin]. *)
Variable distanceTo : Vector3 -> Vector3 -> Q.
Variable setFromVector3 : Vector3 -> Spherical.
Variable setFromSpherical : Spherical -> Vector3.
Variable Math_sin : Q -> Q.

Definition target : Vector3 := mkVector3 0 10 0.

(** Audio volume from the camera distance. *)
Definition useFrame_audio (st : Scene) : Scene :=
  match positionalAudio st with
  | Some _ =>
      let distance := distanceTo (cam_position (camera st)) target in
      set_positionalAudio (Some (useFrame_volume distance)) st
  | None => st
  end.

(** Camera controls with the arrow keys. *)
Definition useFrame_camera (delta : Q) (st : Scene) : Scene :=
  let arrowKeys := arrowKeys st in
  if left arrowKeys || right arrowKeys || up arrowKeys || down arrowKeys
  then
    let offset := subVectors (cam_position (camera st)) target in
    let spherical := setFromVector3 offset in
    let spherical := useFrame_spherical arrowKeys delta spherical in
    let offset := setFromSpherical spherical in
    set_camera (mkCamera (addVectors target offset) target) st
  else st.

(** Bobbing and rotation of the spawned cubes. *)
Definition animateCube (time : Q) (cube : Mesh) : Mesh :=
  let cubeTime := time - spawnTime cube in
  {| geometry := geometry cube;
     color := color cube;
     opacity := opacity cube;
     position :=
       mkVector3 (x (position cube))
                 (baseY cube + Math_sin cubeTime * 20)
                 (z (position cube));
     rotation_x := cubeTime * 0.5;
     rotation_z := cubeTime * 0.51;
     spawnTime := spawnTime cube;
     baseY := baseY cube;
     isPreview := isPreview cube |}.

Definition useFrame_cubes (time : Q) (st : Scene) : Scene :=
  set_spawnedCubes (map (animateCube time) (spawnedCubes st)) st.

Definition useFrame_display (now : Q) (st : Scene) : Scene :=
  if rgbDisplay st then
    set_rgbPills
      (updateRGBDisplay (rgbDisplay st) (rgbPills st) (globalRGB st)
                        (keyHoldState st) now) st
  else st.

(** The preview object: created on the first frame of a session, rebuilt
    every frame of it, removed once the session is over. *)
Definition useFrame_preview (now : Q) (st : Scene) : Scene :=
  match isHolding st, holdStartPosition st with
  | true, Some holdStartPosition =>
      let holdDuration := now - holdStartTime st in
      let currentSize := useFrame_currentSize holdDuration in
      let currentRoundness :=
        useFrame_currentRoundness (isSpacebarHeld st)
                                  (maxRoundnessAchieved st) holdDuration in
      let globalRGB := globalRGB st in
      let st :=
        if isSpacebarHeld st
        then set_maxRoundnessAchieved
               (Qmax (maxRoundnessAchieved st) currentRoundness) st
        else st in
      let color :=
        (inject_Z (r globalRGB) / 255,
         inject_Z (g globalRGB) / 255,
         inject_Z (b globalRGB) / 255) in
      let preview :=
        match previewRef st with
        | Some preview => preview
        | None =>
            let minSize := 5 in
            {| geometry := BoxGeometry minSize minSize minSize;
               color := color;
               opacity := (inject_Z (a globalRGB) / 255) * 0.5;
               position :=
                 mkVector3 (x holdStartPosition)
                           (y holdStartPosition + minSize / 2)
                           (z holdStartPosition);
               rotation_x := 0;
               rotation_z := 0;
               spawnTime := 0;
               baseY := 0;
               isPreview := true |}
        end in
      let preview :=
        {| geometry :=
             if Qlt_le_dec 0 currentRoundness
             then RoundedBoxGeometry currentSize currentSize currentSize 8
                    (Qmin currentRoundness (currentSize / 2))
             else BoxGeometry currentSize currentSize currentSize;
           color := color;
           opacity := (inject_Z (a globalRGB) / 255) * 0.5;
           position :=
             mkVector3 (x holdStartPosition)
                       (y holdStartPosition + currentSize / 2)
                       (z holdStartPosition);
           rotation_x := rotation_x preview;
           rotation_z := rotation_z preview;
           spawnTime := spawnTime preview;
           baseY := baseY preview;
           isPreview := isPreview preview |} in
      set_previewRef (Some preview) st
  | false, _ =>
      match previewRef st with
      | Some _ => set_previewRef None st
      | None => st
      end
  | true, None => st
  end.

(** The frame up to the preview step. *)
Definition before_preview (time delta now : Q) (st : Scene) : Scene :=
  useFrame_display now
    (useFrame_cubes time (useFrame_camera delta (useFrame_audio st))).

(** [useFrame((state, delta) => ...)]: [time] is
    [state.clock.elapsedTime], [now] is [performance.now()]. *)
Definition useFrame (time delta now : Q) (st : Scene) : Scene :=
  let st := useFrame_audio st in
  let st := useFrame_camera delta st in
  let st := useFrame_cubes time st in
  let st := useFrame_display now st in
  useFrame_preview now st.

End Frame.

(** ** Events and runs *)

Inductive Event :=
| KeyDown (key : string) (now : Q)
| KeyUp (key : string) (now : Q)
| MouseDown (button : Z) (raycaster : Raycaster) (now : Q)
| MouseUp (button : Z) (now : Q)
| Frame (time delta now : Q).

Section Machine.

Variable distanceTo : Vector3 -> Vector3 -> Q.
Variable setFromVector3 : Vector3 -> Spherical.
Variable setFromSpherical : Spherical -> Vector3.
Variable Math_sin : Q -> Q.

Definition step (st : Scene) (e : Event) : Scene :=
  match e with
  | KeyDown key now => handleKeyDown key now st
  | KeyUp key now => handleKeyUp key now st
  | MouseDown button raycaster now => handleMouseDown button raycaster now st
  | MouseUp button now => handleMouseUp button now st
  | Frame time delta now =>
      useFrame distanceTo setFromVector3 setFromSpherical Math_sin
               time delta now st
  end.

Definition run (events : list Event) (st : Scene) : Scene :=
  fold_left step events st.

End Machine.

(** ** Observations and the formulas of the specification *)

(** The edge length of a cube's shape. *)
Definition geometry_size (shape : Geometry) : Q :=
  match shape with
  | BoxGeometry width _ _ => width
  | RoundedBoxGeometry width _ _ _ _ => width
  end.

(** The corner radius of a cube's shape, 0 for a plain box. *)
Definition geometry_radius (shape : Geometry) : Q :=
  match shape with
  | BoxGeometry _ _ _ => 0
  | RoundedBoxGeometry _ _ _ _ radius => radius
  end.

(** [clamp(v, lo, hi)] as the specification writes it. *)
Definition clamp (v lo hi : Q) : Q := Qmax lo (Qmin hi v).

(** The size rule in the specification's words. *)
Definition spec_size (d : Q) : Q := 5 + 45 * Qmin d 3000 / 3000.

(** The preview rule in the specification's words: the delta is taken
    from the elapsed time cut off at 3000 ms. *)
Definition spec_preview (v : Z) (elapsed : Q) : Z :=
  ((v + Qfloor (Qmin elapsed 3000 / 3000 * 255)) mod 256)%Z.

(** The anchor rule in the specification's words: the fallback plane is
    the horizontal plane at the height of the look-at target. *)
Definition spec_anchor (raycaster : Raycaster) : Vector3 :=
  match intersectObject_water raycaster with
  | point :: _ => point
  | [] =>
      match ray_intersectPlane raycaster
              (mkPlane (mkVector3 0 1 0) (- y target)) with
      | Some point => point
      | None => mkVector3 0 0 0
      end
  end.

(** The limits of the polar angle. *)
Definition polar_ok (angle : Q) : Prop :=
  0.1 <= angle <= Math_PI * 0.495.

(** The camera controller over a sequence of frames, each with the arrow
    keys active in it and its delta.  The polar angle and the radius one
    frame writes are those the next one reads back from the camera
    position; the azimuth is read back wrapped into (-PI, PI], so
    [orbit] is used for the polar angle and the radius only. *)
Definition orbit (frames : list (ArrowKeys * Q)) (s : Spherical)
  : Spherical :=
  fold_left (fun s f => useFrame_spherical (fst f) (snd f) s) frames s.

(** The volume rule in the specification's words. *)
Definition spec_volume (distance : Q) : Q :=
  clamp (1.0 - clamp ((distance - 40) / (1000 - 40)) 0 1 * 0.9) 0.2 1.0.

(** A stand-in for three.js, used where a statement is run on concrete
    data: a ray with an origin and a direction, cut with a plane the way
    [Ray.intersectPlane] does it. *)
Definition dot (p q : Vector3) : Q := x p * x q + y p * y q + z p * z q.

Definition intersectPlane (origin direction : Vector3) (plane : Plane)
  : option Vector3 :=
  let denominator := dot (normal plane) direction in
  if Qeq_bool denominator 0 then
    if Qeq_bool (dot (normal plane) origin + constant plane) 0
    then Some origin
    else None
  else
    let t := - (dot origin (normal plane) + constant plane) / denominator in
    if Qle_bool 0 t
    then Some (mkVector3 (Qred (x origin + t * x direction))
                         (Qred (y origin + t * y direction))
                         (Qred (z origin + t * z direction)))
    else None.

Definition raycasterOf (hits : list Vector3) (origin direction : Vector3)
  : Raycaster :=
  mkRaycaster hits (intersectPlane origin direction).

(** Stand-ins for the other three.js parameters, of no geometric meaning:
    they only make a frame executable on concrete data. *)
Definition demo_distanceTo (p q : Vector3) : Q :=
  Qabs (x p - x q) + Qabs (y p - y q) + Qabs (z p - z q).
Definition demo_setFromVector3 (v : Vector3) : Spherical :=
  mkSpherical (x v) (y v) (z v).
Definition demo_setFromSpherical (s : Spherical) : Vector3 :=
  mkVector3 (radius s) (phi s) (theta s).
Definition demo_sin (t : Q) : Q := 0.

(** The fields a session and the colour model live in. *)
Definition same_inputs (s t : Scene) : Prop :=
  isHolding t = isHolding s /\
  holdStartTime t = holdStartTime s /\
  holdStartPosition t = holdStartPosition s /\
  isSpacebarHeld t = isSpacebarHeld s /\
  maxRoundnessAchieved t = maxRoundnessAchieved s /\
  globalRGB t = globalRGB s /\
  keyHoldState t = keyHoldState s /\
  previewRef t = previewRef s.

(** A session to run statements on: the spacebar goes down at 900 ms,
    the primary button at 1000 ms over the water at (12, 0, -7). *)
Definition demo_session : Scene :=
  handleMouseDown 0
    (raycasterOf [mkVector3 12 0 (-7)] (mkVector3 30 50 200)
                 (mkVector3 0 (-1) 0))
    1000 (handleKeyDown " " 900 initialScene).

(** The shape of a mesh in lowest terms: edge length, segment count and
    corner radius (0 and 0 for a plain box). *)
Definition shape_summary (mesh : Mesh) : Q * Z * Q :=
  match geometry mesh with
  | BoxGeometry width _ _ => (Qred width, 0%Z, 0)
  | RoundedBoxGeometry width _ _ segments radius =>
      (Qred width, segments, Qred radius)
  end.

(** All four channels are 8-bit values. *)
Definition rgb_in_range (c : RGB) : Prop :=
  (0 <= r c < 256 /\ 0 <= g c < 256 /\ 0 <= b c < 256 /\ 0 <= a c < 256)%Z.

(** ** Definitions for the further properties *)

(** The keys the keyboard handlers react to. *)
Definition tracked (key : string) : bool :=
  String.eqb key "ArrowUp" || String.eqb key "ArrowDown"
  || String.eqb key "ArrowLeft" || String.eqb key "ArrowRight"
  || String.eqb key " " || String.eqb key "Spacebar"
  || String.eqb key "1" || String.eqb key "2"
  || String.eqb key "3" || String.eqb key "4".

(** The keys that only switch a flag: the arrows and the spacebar. *)
Definition flag_keys : list string :=
  ["ArrowUp"; "ArrowDown"; "ArrowLeft"; "ArrowRight"; " "; "Spacebar"]%string.

(** The reading of [performance.now()] an event carries. *)
Definition event_time (e : Event) : Q :=
  match e with
  | KeyDown _ now => now
  | KeyUp _ now => now
  | MouseDown _ _ now => now
  | MouseUp _ now => now
  | Frame _ _ now => now
  end.

(** The events come in the order of their clock readings, none before
    [t]. *)
Fixpoint chronological (t : Q) (events : list Event) : Prop :=
  match events with
  | [] => True
  | e :: events => t <= event_time e /\ chronological (event_time e) events
  end.

(** The clock reading after the events, [t] if there are none. *)
Definition last_time (t : Q) (events : list Event) : Q :=
  fold_left (fun _ e => event_time e) events t.

(** Two shapes of the same class and the same measures. *)
Definition geometry_eq (s1 s2 : Geometry) : Prop :=
  match s1, s2 with
  | BoxGeometry w1 h1 d1, BoxGeometry w2 h2 d2 =>
      w1 == w2 /\ h1 == h2 /\ d1 == d2
  | RoundedBoxGeometry w1 h1 d1 n1 r1, RoundedBoxGeometry w2 h2 d2 n2 r2 =>
      w1 == w2 /\ h1 == h2 /\ d1 == d2 /\ n1 = n2 /\ r1 == r2
  | _, _ => False
  end.

(** The roundness a frame computes with the spacebar down, as a function
    of the hold duration. *)
Definition roundness_at (d : Q) : Q := useFrame_currentRoundness true 0 d.

(** What holds of the scene after events in clock order, the last of
    them at [t]: 8-bit colours; no key pressed after [t], and a key that
    is up has the start time 0; a session has an anchor, started no later
    than [t], and its roundness so far is between 0 and the roundness the
    hold has reached. *)
Definition scene_ok (t : Q) (st : Scene) : Prop :=
  0 <= t /\
  rgb_in_range (globalRGB st) /\
  (forall k, Channel.startTime (get_hold k (keyHoldState st)) <= t) /\
  (forall k, Channel.isHolding (get_hold k (keyHoldState st)) = false ->
             Channel.startTime (get_hold k (keyHoldState st)) = 0) /\
  0 <= maxRoundnessAchieved st /\
  (isHolding st = true ->
   holdStartPosition st <> None /\
   holdStartTime st <= t /\
   maxRoundnessAchieved st <= roundness_at (t - holdStartTime st)).

(** A session has an anchor. *)
Definition anchored (st : Scene) : Prop :=
  isHolding st = true -> holdStartPosition st <> None.

(** The turn of the azimuth the arrow keys ask for in one frame. *)
Definition azimuth_turn (f : ArrowKeys * Q) : Q :=
  (if right (fst f) then 1.2 * snd f else 0)
  - (if left (fst f) then 1.2 * snd f else 0).

(** The fields a frame only reads. *)
Definition same_input_state (s t : Scene) : Prop :=
  isHolding t = isHolding s /\
  holdStartTime t = holdStartTime s /\
  holdStartPosition t = holdStartPosition s /\
  isSpacebarHeld t = isSpacebarHeld s /\
  arrowKeys t = arrowKeys s /\
  globalRGB t = globalRGB s /\
  keyHoldState t = keyHoldState s /\
  rgbDisplay t = rgbDisplay s.

(** Whether an event is a primary-button pointer-down. *)
Definition is_primary_down (e : Event) : bool :=
  match e with
  | MouseDown button _ _ => (button =? 0)%Z
  | _ => false
  end.

(** What a cube keeps for life: its shape, material, base height and
    spawn time. *)
Definition cube_identity (cube : Mesh) : Geometry * (Q * Q * Q) * Q * Q * Q :=
  (geometry cube, color cube, opacity cube, baseY cube, spawnTime cube).

(** Events to run statements on: the spacebar down at 900 ms, the primary
    button down at 1000 ms over the water at (12, 0, -7), a frame at
    1750 ms. *)
Definition demo_events : list Event :=
  [KeyDown " " 900;
   MouseDown 0
     (raycasterOf [mkVector3 12 0 (-7)] (mkVector3 30 50 200)
                  (mkVector3 0 (-1) 0))
     1000;
   Frame 1 (1 # 60) 1750].

(** The state after [demo_events]. *)
Definition demo_reached : Scene :=
  run demo_distanceTo demo_setFromVector3 demo_setFromSpherical demo_sin
      demo_events initialScene.

(** ** The keyboard handlers in steps

    [handleKeyDown] and [handleKeyUp] are five conditional updates of the
    flags followed by the channel-key block; the steps below are those of
    the handlers, named. *)

(** A conditional update, [if (test) st = f(st)]. *)
Definition when (test : bool) (f : Scene -> Scene) (st : Scene) : Scene :=
  if test then f st else st.

Definition set_up (v : bool) (st : Scene) : Scene :=
  let prev := arrowKeys st in
  set_arrowKeys (mkArrowKeys v (down prev) (left prev) (right prev)) st.

Definition set_down (v : bool) (st : Scene) : Scene :=
  let prev := arrowKeys st in
  set_arrowKeys (mkArrowKeys (up prev) v (left prev) (right prev)) st.

Definition set_left (v : bool) (st : Scene) : Scene :=
  let prev := arrowKeys st in
  set_arrowKeys (mkArrowKeys (up prev) (down prev) v (right prev)) st.

Definition set_right (v : bool) (st : Scene) : Scene :=
  let prev := arrowKeys st in
  set_arrowKeys (mkArrowKeys (up prev) (down prev) (left prev) v) st.

(** The flag updates of a key event; [v] is [true] for a key-down and
    [false] for a key-up. *)
Definition key_flags (v : bool) (key : string) (st : Scene) : Scene :=
  when (String.eqb key " " || String.eqb key "Spacebar")
       (set_isSpacebarHeld v)
    (when (String.eqb key "ArrowRight") (set_right v)
       (when (String.eqb key "ArrowLeft") (set_left v)
          (when (String.eqb key "ArrowDown") (set_down v)
             (when (String.eqb key "ArrowUp") (set_up v) st)))).

(** The channel-key block of [handleKeyDown]. *)
Definition keyDown_channel (key : string) (now : Q) (st : Scene) : Scene :=
  match Channel.of_key key with
  | Some k =>
      if negb (Channel.isHolding (get_hold k (keyHoldState st)))
      then set_keyHoldState
             (set_hold k (Channel.mkHold true now) (keyHoldState st)) st
      else st
  | None => st
  end.

(** The colour a release of channel [k] commits. *)
Definition commit (k : Channel.Key) (delta : Z) (c : RGB) : RGB :=
  match k with
  | Channel.K1 => mkRGB (Z.rem (r c + delta) 256) (g c) (b c) (a c)
  | Channel.K2 => mkRGB (r c) (Z.rem (g c + delta) 256) (b c) (a c)
  | Channel.K3 => mkRGB (r c) (g c) (Z.rem (b c + delta) 256) (a c)
  | Channel.K4 => mkRGB (r c) (g c) (b c) (Z.rem (a c + delta) 256)
  end.

(** The channel-key block of [handleKeyUp]. *)
Definition keyUp_channel (key : string) (now : Q) (st : Scene) : Scene :=
  match Channel.of_key key with
  | Some k =>
      let prev := keyHoldState st in
      let holdDuration := now - Channel.startTime (get_hold k prev) in
      set_keyHoldState (set_hold k (Channel.mkHold false 0) prev)
        (set_globalRGB (commit k (colorChange holdDuration) (globalRGB st)) st)
  | None => st
  end.

(** The fields the flag updates leave alone: all but [arrowKeys] and
    [isSpacebarHeld]. *)
Definition same_but_flags (s t : Scene) : Prop :=
  isHolding t = isHolding s /\
  holdStartTime t = holdStartTime s /\
  holdStartPosition t = holdStartPosition s /\
  maxRoundnessAchieved t = maxRoundnessAchieved s /\
  globalRGB t = globalRGB s /\
  keyHoldState t = keyHoldState s /\
  spawnedCubes t = spawnedCubes s /\
  previewRef t = previewRef s /\
  camera t = camera s /\
  positionalAudio t = positionalAudio s /\
  rgbDisplay t = rgbDisplay s /\
  rgbPills t = rgbPills s.

(** The fields no keyboard handler writes. *)
Definition same_outside_keyboard (s t : Scene) : Prop :=
  isHolding t = isHolding s /\
  holdStartTime t = holdStartTime s /\
  holdStartPosition t = holdStartPosition s /\
  maxRoundnessAchieved t = maxRoundnessAchieved s /\
  spawnedCubes t = spawnedCubes s /\
  previewRef t = previewRef s /\
  camera t = camera s /\
  positionalAudio t = positionalAudio s /\
  rgbDisplay t = rgbDisplay s /\
  rgbPills t = rgbPills s.

(** The fields of the pointer session and the cubes. *)
Definition same_session (s t : Scene) : Prop :=
  isHolding t = isHolding s /\
  holdStartTime t = holdStartTime s /\
  holdStartPosition t = holdStartPosition s /\
  maxRoundnessAchieved t = maxRoundnessAchieved s /\
  spawnedCubes t = spawnedCubes s.

(** * Properties *)

(** Linear arithmetic over [Q] with divisions by literals: a quotient
    [e / c], [c] a closed term, is turned into the product of [e] with
    the literal [1 / c]. *)
Ltac inv_literals :=
  unfold Qdiv in *;
  repeat match goal with
         | |- context [Qinv ?c] =>
             let v := eval cbv in (Qinv c) in
             match v with
             | (_ # _) => change (Qinv c) with v
             end
         | H : context [Qinv ?c] |- _ =>
             let v := eval cbv in (Qinv c) in
             match v with
             | (_ # _) => change (Qinv c) with v in H
             end
         end.
Ltac qlra := inv_literals; lra.

(** ** Size *)

Lemma handleMouseUp_size_spec (d : Q) : handleMouseUp_size d == spec_size d.
Proof. unfold handleMouseUp_size, spec_size. field. Qed.

Lemma useFrame_currentSize_spec (d : Q) :
  useFrame_currentSize d == spec_size d.
Proof. unfold useFrame_currentSize, spec_size. field. Qed.

Lemma spec_size_below (d : Q) : d <= 3000 -> spec_size d == 5 + 45 * d / 3000.
Proof.
  intros Hd. unfold spec_size. rewrite (Q.min_l _ _ Hd). reflexivity.
Qed.

Lemma spec_size_saturated (d : Q) : 3000 <= d -> spec_size d == 50.
Proof.
  intros Hd. unfold spec_size. rewrite (Q.min_r _ _ Hd). reflexivity.
Qed.

Lemma spec_size_bounds (d : Q) : 0 <= d -> 5 <= spec_size d <= 50.
Proof.
  intros Hd. destruct (Qlt_le_dec d 3000) as [Hlt | Hge].
  - apply Qlt_le_weak in Hlt. rewrite (spec_size_below d Hlt). qlra.
  - rewrite (spec_size_saturated d Hge). lra.
Qed.

Lemma spec_size_mono (d1 d2 : Q) : d1 <= d2 -> spec_size d1 <= spec_size d2.
Proof.
  intros H. unfold spec_size.
  assert (Hm : Qmin d1 3000 <= Qmin d2 3000)
    by (apply Q.min_le_compat_r; exact H).
  qlra.
Qed.

Lemma same_inputs_refl (s : Scene) : same_inputs s s.
Proof. repeat split. Qed.

Lemma same_inputs_trans (s t u : Scene) :
  same_inputs s t -> same_inputs t u -> same_inputs s u.
Proof.
  unfold same_inputs. intros H1 H2.
  repeat match goal with H : _ /\ _ |- _ => destruct H end.
  repeat split; congruence.
Qed.

Section FrameLemmas.

Variable distanceTo : Vector3 -> Vector3 -> Q.
Variable setFromVector3 : Vector3 -> Spherical.
Variable setFromSpherical : Spherical -> Vector3.
Variable Math_sin : Q -> Q.

Let frame := useFrame distanceTo setFromVector3 setFromSpherical Math_sin.

Lemma useFrame_audio_inputs (st : Scene) :
  same_inputs st (useFrame_audio distanceTo st).
Proof.
  unfold useFrame_audio. destruct (positionalAudio st); repeat split.
Qed.

Lemma useFrame_camera_inputs (delta : Q) (st : Scene) :
  same_inputs st (useFrame_camera setFromVector3 setFromSpherical delta st).
Proof.
  unfold useFrame_camera.
  destruct (left (arrowKeys st) || right (arrowKeys st)
            || up (arrowKeys st) || down (arrowKeys st)); repeat split.
Qed.

Lemma useFrame_cubes_inputs (time : Q) (st : Scene) :
  same_inputs st (useFrame_cubes Math_sin time st).
Proof. repeat split. Qed.

Lemma useFrame_display_inputs (now : Q) (st : Scene) :
  same_inputs st (useFrame_display now st).
Proof.
  unfold useFrame_display. destruct (rgbDisplay st); repeat split.
Qed.

Let prefix :=
  before_preview distanceTo setFromVector3 setFromSpherical Math_sin.

Lemma before_preview_inputs (time delta now : Q) (st : Scene) :
  same_inputs st (prefix time delta now st).
Proof.
  unfold prefix, before_preview.
  eapply same_inputs_trans; [apply useFrame_audio_inputs |].
  eapply same_inputs_trans; [apply useFrame_camera_inputs |].
  eapply same_inputs_trans; [apply useFrame_cubes_inputs |].
  apply useFrame_display_inputs.
Qed.

Lemma useFrame_unfold (time delta now : Q) (st : Scene) :
  frame time delta now st
  = useFrame_preview now (prefix time delta now st).
Proof. reflexivity. Qed.

(** What a frame does to the preview and to [maxRoundnessAchieved]
    during a session with an anchor. *)
Lemma useFrame_session (time delta now : Q) (st : Scene) (p : Vector3) :
  isHolding st = true ->
  holdStartPosition st = Some p ->
  let d := now - holdStartTime st in
  let size := useFrame_currentSize d in
  let roundness :=
    useFrame_currentRoundness (isSpacebarHeld st)
                              (maxRoundnessAchieved st) d in
  (exists preview,
      previewRef (frame time delta now st) = Some preview /\
      geometry preview =
        (if Qlt_le_dec 0 roundness
         then RoundedBoxGeometry size size size 8 (Qmin roundness (size / 2))
         else BoxGeometry size size size)) /\
  maxRoundnessAchieved (frame time delta now st) =
    (if isSpacebarHeld st
     then Qmax (maxRoundnessAchieved st) roundness
     else maxRoundnessAchieved st) /\
  isHolding (frame time delta now st) = true /\
  holdStartTime (frame time delta now st) = holdStartTime st /\
  holdStartPosition (frame time delta now st) = Some p /\
  isSpacebarHeld (frame time delta now st) = isSpacebarHeld st.
Proof.
  intros Hhold Hpos d size roundness.
  subst d size roundness. rewrite useFrame_unfold.
  destruct (before_preview_inputs time delta now st)
    as (E1 & E2 & E3 & E4 & E5 & _).
  unfold useFrame_preview. rewrite E1, E2, E3, E4, E5, Hhold, Hpos.
  destruct (isSpacebarHeld st) eqn:Hspace; cbn;
    rewrite ?E1, ?E2, ?E3, ?E4, ?E5, ?Hhold, ?Hpos, ?Hspace;
    (split; [eexists; split; reflexivity | repeat split; reflexivity]).
Qed.

End FrameLemmas.

(** The cube a release commits. *)
Lemma handleMouseUp_session (now : Q) (st : Scene) (p : Vector3) :
  isHolding st = true ->
  holdStartPosition st = Some p ->
  handleMouseUp 0 now st =
    spawnCube p (handleMouseUp_size (now - holdStartTime st))
              (maxRoundnessAchieved st) now (set_isHolding false st).
Proof.
  intros Hhold Hpos. unfold handleMouseUp. rewrite Hhold, Hpos. reflexivity.
Qed.

Lemma spawnCube_size (p : Vector3) (size roundness now : Q) (st : Scene) :
  exists cube,
    spawnedCubes (spawnCube p size roundness now st)
      = spawnedCubes st ++ [cube] /\
    geometry_size (geometry cube) = size /\
    geometry cube =
      (if Qlt_le_dec 0 roundness
       then RoundedBoxGeometry size size size 8 (Qmin roundness (size / 2))
       else BoxGeometry size size size).
Proof.
  unfold spawnCube. eexists. split; [reflexivity |]. cbn.
  split; [| reflexivity]. destruct (Qlt_le_dec 0 roundness); reflexivity.
Qed.

(** The fraction of the three seconds a hold has used up. *)
Lemma normalized_bounds (d : Q) : 0 <= d -> 0 <= Qmin d 3000 / 3000 <= 1.
Proof.
  intros Hd.
  assert (H0 : 0 <= Qmin d 3000) by (apply Q.min_glb; lra).
  assert (H1 : Qmin d 3000 <= 3000) by apply Q.le_min_r.
  qlra.
Qed.

Section SizeAndRoundness.

Variable distanceTo : Vector3 -> Vector3 -> Q.
Variable setFromVector3 : Vector3 -> Spherical.
Variable setFromSpherical : Spherical -> Vector3.
Variable Math_sin : Q -> Q.

Let frame := useFrame distanceTo setFromVector3 setFromSpherical Math_sin.

(** C1. In a pointer-hold session of duration [d >= 0], the cube
    committed at pointer-up and the preview rebuilt by a frame both have
    the size [5 + 45 * min(d, 3000) / 3000]; that size lies in [5, 50],
    does not decrease when [d] grows, and is 50 from 3000 ms on. *)
Theorem C1_hold_size (time delta now : Q) (st : Scene) (p : Vector3) :
  isHolding st = true ->
  holdStartPosition st = Some p ->
  holdStartTime st <= now ->
  let d := now - holdStartTime st in
  (exists cube,
      spawnedCubes (handleMouseUp 0 now st) = spawnedCubes st ++ [cube] /\
      geometry_size (geometry cube) == 5 + 45 * Qmin d 3000 / 3000) /\
  (exists preview,
      previewRef (frame time delta now st) = Some preview /\
      geometry_size (geometry preview) == 5 + 45 * Qmin d 3000 / 3000) /\
  5 <= 5 + 45 * Qmin d 3000 / 3000 <= 50 /\
  (forall d', d <= d' ->
              5 + 45 * Qmin d 3000 / 3000 <= 5 + 45 * Qmin d' 3000 / 3000) /\
  (3000 <= d -> 5 + 45 * Qmin d 3000 / 3000 == 50).
Proof.
  intros Hhold Hpos Hnow d.
  assert (Hd : 0 <= d) by (subst d; lra).
  split; [| split; [| split; [| split]]].
  - rewrite (handleMouseUp_session now st p Hhold Hpos).
    destruct (spawnCube_size p (handleMouseUp_size d) (maxRoundnessAchieved st)
                             now (set_isHolding false st))
      as (cube & Hcubes & Hsize & _).
    exists cube. split; [exact Hcubes |].
    rewrite Hsize. apply handleMouseUp_size_spec.
  - destruct (useFrame_session distanceTo setFromVector3 setFromSpherical
                               Math_sin time delta now st p Hhold Hpos)
      as ((preview & Hprev & Hgeo) & _).
    exists preview. split; [exact Hprev |].
    rewrite Hgeo.
    destruct (Qlt_le_dec 0 _); cbn; apply useFrame_currentSize_spec.
  - apply (spec_size_bounds d Hd).
  - intros d' Hle. apply (spec_size_mono d d' Hle).
  - intros Hge. apply (spec_size_saturated d Hge).
Qed.

End SizeAndRoundness.

(** ** Colour channels *)

Lemma of_key_inv (key : string) (k : Channel.Key) :
  Channel.of_key key = Some k ->
  key = match k with
        | Channel.K1 => "1"
        | Channel.K2 => "2"
        | Channel.K3 => "3"
        | Channel.K4 => "4"
        end%string.
Proof.
  unfold Channel.of_key.
  destruct (String.eqb_spec key "1"); [intros [= <-]; assumption |].
  destruct (String.eqb_spec key "2"); [intros [= <-]; assumption |].
  destruct (String.eqb_spec key "3"); [intros [= <-]; assumption |].
  destruct (String.eqb_spec key "4"); [intros [= <-]; assumption |].
  discriminate.
Qed.

Ltac channel_cases key k H :=
  apply of_key_inv in H; destruct k; subst key.

Lemma get_set_hold (k : Channel.Key) (h : Channel.Hold) (s : KeyHoldState) :
  get_hold k (set_hold k h s) = h.
Proof. destruct k; reflexivity. Qed.

Lemma set_hold_same (k : Channel.Key) (s : KeyHoldState) :
  set_hold k (get_hold k s) s = s.
Proof. destruct k, s; reflexivity. Qed.

Lemma set_set_hold (k : Channel.Key) (h h' : Channel.Hold) (s : KeyHoldState) :
  set_hold k h' (set_hold k h s) = set_hold k h' s.
Proof. destruct k; reflexivity. Qed.

(** A key-down of a channel key touches nothing but that key's hold
    state, and that only when the key is not held yet. *)
Lemma handleKeyDown_channel (key : string) (k : Channel.Key) (now : Q)
  (st : Scene) :
  Channel.of_key key = Some k ->
  handleKeyDown key now st =
    if Channel.isHolding (get_hold k (keyHoldState st))
    then st
    else set_keyHoldState
           (set_hold k (Channel.mkHold true now) (keyHoldState st)) st.
Proof.
  intros Hk. channel_cases key k Hk; unfold handleKeyDown; cbn;
    match goal with
    | |- context [Channel.isHolding ?h] => destruct (Channel.isHolding h)
    end; reflexivity.
Qed.

(** A key-up of a channel key: what it commits and what it resets. *)
Lemma handleKeyUp_channel (key : string) (k : Channel.Key) (now : Q)
  (st : Scene) :
  Channel.of_key key = Some k ->
  let delta :=
    colorChange (now - Channel.startTime (get_hold k (keyHoldState st))) in
  get_channel k (globalRGB (handleKeyUp key now st))
  = Z.rem (get_channel k (globalRGB st) + delta) 256 /\
  keyHoldState (handleKeyUp key now st)
  = set_hold k (Channel.mkHold false 0) (keyHoldState st).
Proof.
  intros Hk. channel_cases key k Hk; split; reflexivity.
Qed.

Lemma colorChange_nonneg (d : Q) : 0 <= d -> (0 <= colorChange d)%Z.
Proof.
  intros Hd. unfold colorChange.
  change 0%Z with (Qfloor 0). apply Qfloor_resp_le. qlra.
Qed.

Lemma colorChange_comp (d d' : Q) : d == d' -> colorChange d = colorChange d'.
Proof.
  intros E. unfold colorChange. apply Qfloor_comp. rewrite E. reflexivity.
Qed.

Lemma colorChange_mono (d d' : Q) :
  d <= d' -> (colorChange d <= colorChange d')%Z.
Proof.
  intros H. unfold colorChange. apply Qfloor_resp_le. qlra.
Qed.

(** On the values a channel can hold, [%] is the mathematical [mod]. *)
Lemma rem_is_mod (v delta : Z) :
  (0 <= v)%Z -> (0 <= delta)%Z ->
  Z.rem (v + delta) 256 = ((v + delta) mod 256)%Z.
Proof. intros Hv Hk. apply Z.rem_mod_nonneg; lia. Qed.

(** A release after a hold of non-negative duration keeps the colour
    within 8 bits. *)
Lemma handleKeyUp_in_range (key : string) (k : Channel.Key) (now : Q)
  (st : Scene) :
  Channel.of_key key = Some k ->
  Channel.startTime (get_hold k (keyHoldState st)) <= now ->
  rgb_in_range (globalRGB st) ->
  rgb_in_range (globalRGB (handleKeyUp key now st)).
Proof.
  intros Hk Hnow (Hr & Hg & Hb & Ha).
  assert (Hd : (0 <= colorChange
                      (now - Channel.startTime (get_hold k (keyHoldState st))))%Z)
    by (apply colorChange_nonneg; lra).
  channel_cases key k Hk; cbn in Hd |- *; unfold rgb_in_range; cbn;
    repeat split; try lia;
    apply Z.rem_bound_pos; lia.
Qed.

Section Colour.

Variable distanceTo : Vector3 -> Vector3 -> Q.
Variable setFromVector3 : Vector3 -> Spherical.
Variable setFromSpherical : Spherical -> Vector3.
Variable Math_sin : Q -> Q.

Let exec := run distanceTo setFromVector3 setFromSpherical Math_sin.

(** A press followed by its release, from a state where the key is up. *)
Lemma press_release (key : string) (k : Channel.Key) (t0 t1 : Q)
  (st : Scene) :
  Channel.of_key key = Some k ->
  Channel.isHolding (get_hold k (keyHoldState st)) = false ->
  let st' := handleKeyUp key t1 (handleKeyDown key t0 st) in
  get_channel k (globalRGB st')
  = Z.rem (get_channel k (globalRGB st) + colorChange (t1 - t0)) 256 /\
  Channel.isHolding (get_hold k (keyHoldState st')) = false.
Proof.
  intros Hk Hup st'. subst st'.
  destruct (handleKeyUp_channel key k t1 (handleKeyDown key t0 st) Hk)
    as [Hc Hh].
  rewrite Hc, Hh, (handleKeyDown_channel key k t0 st Hk), Hup. cbn.
  rewrite !get_set_hold. cbn. split; reflexivity.
Qed.

(** C3. Releasing a channel key held for [d >= 0] ms, on a channel of
    value [v] in [0, 255], commits [(v + k) mod 256] where [k] is the
    delta [floor(d / 3000 * 255)]; two holds whose deltas add up to 512
    bring the channel back to [v]; and holding "1" for exactly 3000 ms
    from the initial colour commits R = 254. *)
Theorem C3_commit_wraps :
  (forall (key : string) (k : Channel.Key) (now : Q) (st : Scene),
      Channel.of_key key = Some k ->
      let v := get_channel k (globalRGB st) in
      let d := now - Channel.startTime (get_hold k (keyHoldState st)) in
      (0 <= v < 256)%Z -> 0 <= d ->
      get_channel k (globalRGB (handleKeyUp key now st))
      = ((v + colorChange d) mod 256)%Z) /\
  (forall (key : string) (k : Channel.Key) (t0 t1 t2 t3 : Q) (st : Scene),
      Channel.of_key key = Some k ->
      Channel.isHolding (get_hold k (keyHoldState st)) = false ->
      let v := get_channel k (globalRGB st) in
      (0 <= v < 256)%Z -> t0 <= t1 -> t2 <= t3 ->
      (colorChange (t1 - t0) + colorChange (t3 - t2) = 512)%Z ->
      get_channel k
        (globalRGB (exec [KeyDown key t0; KeyUp key t1;
                         KeyDown key t2; KeyUp key t3] st))
      = v) /\
  (forall t : Q,
      r (globalRGB (exec [KeyDown "1" t; KeyUp "1" (t + 3000)] initialScene))
      = ((255 + 255) mod 256)%Z /\
      ((255 + 255) mod 256 = 254)%Z).
Proof.
  split; [| split].
  - intros key k now st Hk v d Hv Hd.
    destruct (handleKeyUp_channel key k now st Hk) as [Hc _].
    rewrite Hc. apply rem_is_mod; [lia | apply colorChange_nonneg; exact Hd].
  - intros key k t0 t1 t2 t3 st Hk Hup v Hv H01 H23 Hsum.
    unfold exec, run. cbn [fold_left step].
    destruct (press_release key k t0 t1 st Hk Hup) as [Hc1 Hup1].
    destruct (press_release key k t2 t3 _ Hk Hup1) as [Hc2 _].
    rewrite Hc2, Hc1. fold v.
    assert (H1 : (0 <= colorChange (t1 - t0))%Z)
      by (apply colorChange_nonneg; lra).
    assert (H2 : (0 <= colorChange (t3 - t2))%Z)
      by (apply colorChange_nonneg; lra).
    rewrite (rem_is_mod v _) by lia.
    rewrite rem_is_mod
      by (try apply Z.mod_pos_bound; lia).
    rewrite Z.add_mod_idemp_l by lia.
    replace (v + colorChange (t1 - t0) + colorChange (t3 - t2))%Z
      with (v + 2 * 256)%Z by lia.
    rewrite Z.mod_add by lia. apply Z.mod_small; lia.
  - intros t. split; [| reflexivity].
    unfold exec, run. cbn [fold_left step].
    destruct (press_release "1" Channel.K1 t (t + 3000) initialScene
                            eq_refl eq_refl) as [Hc _].
    cbn [get_channel] in Hc. rewrite Hc.
    rewrite (colorChange_comp (t + 3000 - t) 3000) by ring.
    reflexivity.
Qed.

(** Repeated key-downs of a held channel key change nothing. *)
Lemma repeats_ignored (key : string) (k : Channel.Key) (repeats : list Q)
  (st : Scene) :
  Channel.of_key key = Some k ->
  Channel.isHolding (get_hold k (keyHoldState st)) = true ->
  exec (map (KeyDown key) repeats) st = st.
Proof.
  intros Hk Hheld. unfold exec, run.
  induction repeats as [| t repeats IH]; [reflexivity |].
  cbn [map fold_left step].
  rewrite (handleKeyDown_channel key k t st Hk), Hheld. exact IH.
Qed.

Lemma held_after_keydown (key : string) (k : Channel.Key) (now : Q)
  (st : Scene) :
  Channel.of_key key = Some k ->
  Channel.isHolding (get_hold k (keyHoldState (handleKeyDown key now st)))
  = true.
Proof.
  intros Hk. rewrite (handleKeyDown_channel key k now st Hk).
  destruct (Channel.isHolding (get_hold k (keyHoldState st))) eqn:Hheld.
  - exact Hheld.
  - cbn. rewrite get_set_hold. reflexivity.
Qed.

(** C6. A key-down of a channel key that is already held leaves the
    state, and so that key's [isHolding] and [startTime], unchanged;
    hence a press, any number of repeat key-downs and the release end in
    the same state as the press and the release alone, and the value
    committed is that of one hold timed from the first press. *)
Theorem C6_repeat_keydown :
  (forall (key : string) (k : Channel.Key) (now : Q) (st : Scene),
      Channel.of_key key = Some k ->
      Channel.isHolding (get_hold k (keyHoldState st)) = true ->
      handleKeyDown key now st = st) /\
  (forall (key : string) (k : Channel.Key) (t0 t1 : Q) (repeats : list Q)
          (st : Scene),
      Channel.of_key key = Some k ->
      exec (KeyDown key t0 :: map (KeyDown key) repeats ++ [KeyUp key t1]) st
      = exec [KeyDown key t0; KeyUp key t1] st) /\
  (forall (key : string) (k : Channel.Key) (t0 t1 : Q) (repeats : list Q)
          (st : Scene),
      Channel.of_key key = Some k ->
      Channel.isHolding (get_hold k (keyHoldState st)) = false ->
      get_channel k
        (globalRGB
           (exec (KeyDown key t0 :: map (KeyDown key) repeats
                    ++ [KeyUp key t1]) st))
      = Z.rem (get_channel k (globalRGB st) + colorChange (t1 - t0)) 256).
Proof.
  assert (Hsame :
    forall key k t0 t1 repeats st,
      Channel.of_key key = Some k ->
      exec (KeyDown key t0 :: map (KeyDown key) repeats ++ [KeyUp key t1]) st
      = exec [KeyDown key t0; KeyUp key t1] st).
  { intros key k t0 t1 repeats st Hk.
    unfold exec, run. cbn [fold_left step]. rewrite fold_left_app.
    pose proof (repeats_ignored key k repeats (handleKeyDown key t0 st) Hk
                  (held_after_keydown key k t0 st Hk)) as Hrep.
    unfold exec, run in Hrep. rewrite Hrep. reflexivity. }
  split; [| split].
  - intros key k now st Hk Hheld.
    rewrite (handleKeyDown_channel key k now st Hk), Hheld. reflexivity.
  - exact Hsame.
  - intros key k t0 t1 repeats st Hk Hup.
    rewrite (Hsame key k t0 t1 repeats st Hk).
    apply (press_release key k t0 t1 st Hk Hup).
Qed.

(** C5, evaluated: a key-up of "1" at 3000 ms with no press before it,
    on the initial state.  The hold state stays as it was, the committed
    red goes from 255 to 254. *)
Theorem C5_keyup_without_press :
  Channel.isHolding (hold1 (keyHoldState initialScene)) = false /\
  keyHoldState (handleKeyUp "1" 3000 initialScene)
  = keyHoldState initialScene /\
  globalRGB initialScene = mkRGB 255 255 255 255 /\
  globalRGB (handleKeyUp "1" 3000 initialScene) = mkRGB 254 255 255 255.
Proof. repeat split. Qed.

(** The preview of one channel. *)
Lemma previewRGB_channel (k : Channel.Key) (rgb : RGB)
  (holds : KeyHoldState) (now : Q) :
  get_channel k (previewRGB rgb holds now)
  = if Channel.isHolding (get_hold k holds)
    then Z.rem (get_channel k rgb
                + colorChange (now - Channel.startTime (get_hold k holds)))
               256
    else get_channel k rgb.
Proof. destruct k; reflexivity. Qed.

(** What a frame writes into the pills. *)
Lemma useFrame_pills (time delta now : Q) (st : Scene) :
  rgbPills (useFrame distanceTo setFromVector3 setFromSpherical Math_sin
                     time delta now st)
  = updateRGBDisplay (rgbDisplay st) (rgbPills st) (globalRGB st)
                     (keyHoldState st) now.
Proof.
  unfold useFrame, useFrame_audio.
  destruct (positionalAudio st); cbn;
    unfold useFrame_camera; cbn;
    destruct (left (arrowKeys st) || right (arrowKeys st)
              || up (arrowKeys st) || down (arrowKeys st)); cbn;
    unfold useFrame_display; cbn;
    destruct (rgbDisplay st) eqn:Hdisplay; cbn;
    unfold useFrame_preview; cbn;
    destruct (isHolding st); cbn;
    destruct (holdStartPosition st); cbn;
    destruct (previewRef st); cbn;
    destruct (isSpacebarHeld st); cbn; reflexivity.
Qed.

(** C4, the claim refuted: red 255, key "1" held since 0 ms, a frame at
    6000 ms.  The code previews [(255 + 510) % 256 = 253]; the delta cut
    off at 3000 ms would give [(255 + 255) mod 256 = 254]. *)
Lemma C4_counterexample :
  let st := handleKeyDown "1" 0 initialScene in
  let now := 6000 in
  Channel.isHolding (hold1 (keyHoldState st)) = true /\
  pill_r (rgbPills (useFrame demo_distanceTo demo_setFromVector3
                             demo_setFromSpherical demo_sin 6 (1 # 60)
                             now st))
  = Some 253%Z /\
  spec_preview (r (globalRGB st))
               (now - Channel.startTime (hold1 (keyHoldState st)))
  = 254%Z /\
  colorChange (now - Channel.startTime (hold1 (keyHoldState st))) = 510%Z.
Proof. vm_compute. repeat split. Qed.

(** C4, as the code has it. While channel [k] is held for [e >= 0] ms
    on a committed value [v] in [0, 255], the preview is
    [(v + delta) mod 256] for the hold-derived delta
    [Math.floor((e / 3000) * 255)], the value a release at that instant
    commits, and a frame shows it in the channel's pill.  The delta is
    taken from the elapsed time itself, not from [min(e, 3000)]: up to
    3000 ms it is at most 255 and the preview is that of the claim's
    formula; it never decreases as [e] grows and it does not saturate,
    being at least [255 * n] once [e >= 3000 * n]. *)
Theorem C4_preview (key : string) (k : Channel.Key) (time delta now : Q)
  (st : Scene) :
  let v := get_channel k (globalRGB st) in
  let e := now - Channel.startTime (get_hold k (keyHoldState st)) in
  let preview := previewRGB (globalRGB st) (keyHoldState st) now in
  Channel.of_key key = Some k ->
  Channel.isHolding (get_hold k (keyHoldState st)) = true ->
  (0 <= v < 256)%Z ->
  0 <= e ->
  get_channel k preview = ((v + colorChange e) mod 256)%Z /\
  get_channel k preview = get_channel k (globalRGB (handleKeyUp key now st)) /\
  (rgbDisplay st = true ->
   rgbPills (useFrame distanceTo setFromVector3 setFromSpherical Math_sin
                      time delta now st)
   = mkPills
       (match pill_r (rgbPills st) with
        | Some _ => Some (r preview) | None => None end)
       (match pill_g (rgbPills st) with
        | Some _ => Some (g preview) | None => None end)
       (match pill_b (rgbPills st) with
        | Some _ => Some (b preview) | None => None end)
       (match pill_a (rgbPills st) with
        | Some _ => Some (a preview) | None => None end)) /\
  (e <= 3000 ->
   get_channel k preview = spec_preview v e /\
   (colorChange e <= 255)%Z) /\
  (forall e', e <= e' -> (colorChange e <= colorChange e')%Z) /\
  (forall n : Z,
      (0 <= n)%Z -> 3000 * inject_Z n <= e -> (255 * n <= colorChange e)%Z).
Proof.
  intros v e preview Hk Hheld Hv He.
  assert (Hvalue :
    get_channel k preview = ((v + colorChange e) mod 256)%Z).
  { subst preview. rewrite previewRGB_channel, Hheld.
    apply rem_is_mod; [lia | apply colorChange_nonneg; exact He]. }
  split; [exact Hvalue |].
  split; [| split; [| split; [| split]]].
  - destruct (handleKeyUp_channel key k now st Hk) as [Hcommit _].
    rewrite Hcommit. subst preview.
    rewrite previewRGB_channel, Hheld. reflexivity.
  - intros Hdisplay. rewrite useFrame_pills, Hdisplay. reflexivity.
  - intros Hle. split.
    + rewrite Hvalue. unfold spec_preview, colorChange.
      rewrite (Qfloor_comp (Qmin e 3000 / 3000 * 255) (e / 3000 * 255));
        [reflexivity |].
      rewrite (Q.min_l _ _ Hle). reflexivity.
    + apply (Qfloor_resp_le (e / 3000 * 255) 255). qlra.
  - intros e' Hle. apply colorChange_mono. exact Hle.
  - intros n Hn Hlow. unfold colorChange.
    rewrite <- (Qfloor_Z (255 * n)). apply Qfloor_resp_le.
    rewrite inject_Z_mult. change (inject_Z 255) with 255. qlra.
Qed.

End Colour.

(** ** Pointer-down anchor *)

(** The ray of the stand-in raycaster meets a horizontal plane
    [y + c = 0] at height [-c]. *)
Lemma intersectPlane_height (origin direction p : Vector3) (c : Q) :
  intersectPlane origin direction (mkPlane (mkVector3 0 1 0) c) = Some p ->
  y p == - c.
Proof.
  unfold intersectPlane, dot. cbn [normal constant x y z].
  destruct (Qeq_bool (0 * x direction + 1 * y direction + 0 * z direction) 0)
    eqn:Hden.
  - destruct (Qeq_bool (0 * x origin + 1 * y origin + 0 * z origin + c) 0)
      eqn:Hon; [| discriminate].
    intros [= <-]. apply Qeq_bool_eq in Hon. lra.
  - destruct (Qle_bool 0 _); [| discriminate].
    intros Hp.
    apply (f_equal (fun o => match o with Some v => y v | None => 0 end))
      in Hp.
    cbn beta iota delta [y] in Hp. rewrite <- Hp, Qred_correct.
    apply Qeq_bool_neq in Hden.
    assert (Hy : ~ y direction == 0) by (intros E; apply Hden; lra).
    field. intros E. apply Hy. lra.
Qed.

(** C7, the claim refuted: the camera at its initial position, a ray
    that runs almost level and misses the water.  The code anchors the
    session where the ray meets the plane [y = 0]; the plane at the
    target's height, [y = 10], is met elsewhere. *)
Lemma C7_counterexample :
  let raycaster :=
    raycasterOf [] (mkVector3 30 50 200) (mkVector3 1 (-0.005) 0) in
  holdStartPosition (handleMouseDown 0 raycaster 0 initialScene)
  = Some (mkVector3 10030 0 200) /\
  spec_anchor raycaster = mkVector3 8030 10 200.
Proof. vm_compute. split; reflexivity. Qed.

(** C7, as the code has it. A primary-button pointer-down opens a session
    anchored at the first hit on the water if there is one, else where
    the ray meets the horizontal plane at height 0 (normal (0,1,0),
    constant 0), else at the origin; any other button leaves the state
    as it is. *)
Theorem C7_anchor (button : Z) (raycaster : Raycaster) (now : Q)
  (st : Scene) :
  (button = 0%Z ->
   let st' := handleMouseDown button raycaster now st in
   isHolding st' = true /\
   holdStartTime st' = now /\
   holdStartPosition st' =
     Some (match intersectObject_water raycaster with
           | point :: _ => point
           | [] =>
               match ray_intersectPlane raycaster
                       (mkPlane (mkVector3 0 1 0) 0) with
               | Some point => point
               | None => mkVector3 0 0 0
               end
           end)) /\
  (button <> 0%Z -> handleMouseDown button raycaster now st = st) /\
  (forall origin direction point,
      raycaster = raycasterOf [] origin direction ->
      intersectPlane origin direction (mkPlane (mkVector3 0 1 0) 0)
      = Some point ->
      holdStartPosition (handleMouseDown 0 raycaster now st) = Some point /\
      y point == 0).
Proof.
  split; [| split].
  - intros ->. cbn. repeat split.
  - intros Hb. unfold handleMouseDown.
    destruct (Z.eqb_spec button 0); [contradiction | reflexivity].
  - intros origin direction point -> Hhit. split.
    + cbn. unfold handleMouseDown_anchor. cbn. rewrite Hhit. reflexivity.
    + rewrite (intersectPlane_height origin direction point 0 Hhit). lra.
Qed.

(** ** Camera orbit *)

Lemma polar_limits : 0.1 <= Math_PI * 0.495.
Proof. unfold Math_PI. lra. Qed.

Lemma clamped_polar_ok (v : Q) :
  polar_ok (Qmax 0.1 (Qmin (Math_PI * 0.495) v)).
Proof.
  unfold polar_ok. split.
  - apply Q.le_max_l.
  - apply Q.max_lub; [exact polar_limits | apply Q.le_min_l].
Qed.

Lemma useFrame_spherical_radius (keys : ArrowKeys) (delta : Q)
  (s : Spherical) :
  radius (useFrame_spherical keys delta s) = radius s.
Proof.
  unfold useFrame_spherical.
  destruct (left keys), (right keys), (up keys), (down keys); reflexivity.
Qed.

Lemma useFrame_spherical_clamps (keys : ArrowKeys) (delta : Q)
  (s : Spherical) :
  up keys || down keys = true ->
  polar_ok (phi (useFrame_spherical keys delta s)).
Proof.
  unfold useFrame_spherical.
  destruct (left keys), (right keys), (up keys), (down keys);
    cbn; intros H; try discriminate; apply clamped_polar_ok.
Qed.

Lemma useFrame_spherical_keeps (keys : ArrowKeys) (delta : Q)
  (s : Spherical) :
  polar_ok (phi s) -> polar_ok (phi (useFrame_spherical keys delta s)).
Proof.
  intros Hok. destruct (up keys || down keys) eqn:Hkeys.
  - apply useFrame_spherical_clamps. exact Hkeys.
  - apply orb_false_elim in Hkeys as [Hup Hdown].
    unfold useFrame_spherical. rewrite Hup, Hdown.
    destruct (left keys), (right keys); exact Hok.
Qed.

Section Orbit.

Variable distanceTo : Vector3 -> Vector3 -> Q.
Variable setFromVector3 : Vector3 -> Spherical.
Variable setFromSpherical : Spherical -> Vector3.
Variable Math_sin : Q -> Q.

Let frame := useFrame distanceTo setFromVector3 setFromSpherical Math_sin.

(** Only the camera step of a frame moves the camera. *)
Lemma useFrame_camera_only (time delta now : Q) (st : Scene) :
  camera (frame time delta now st)
  = camera (useFrame_camera setFromVector3 setFromSpherical delta st).
Proof.
  unfold frame, useFrame, useFrame_audio.
  destruct (positionalAudio st); cbn;
    unfold useFrame_camera; cbn;
    destruct (left (arrowKeys st) || right (arrowKeys st)
              || up (arrowKeys st) || down (arrowKeys st)); cbn;
    unfold useFrame_display; cbn;
    destruct (rgbDisplay st); cbn;
    unfold useFrame_preview; cbn;
    destruct (isHolding st); cbn;
    destruct (holdStartPosition st); cbn;
    destruct (previewRef st); cbn;
    destruct (isSpacebarHeld st); cbn; reflexivity.
Qed.

(** C8. The polar angle the controller writes back lies in
    [0.1, PI * 0.495] whenever up or down is active; an update with
    left or right alone leaves it as it was, so an angle within the
    limits stays within them after any sequence of updates, whatever
    the keys and frame deltas; the radius is never changed; and a frame
    with no arrow key active leaves the camera untouched. *)
Theorem C8_polar_angle_clamped :
  (forall keys delta s,
      up keys || down keys = true ->
      polar_ok (phi (useFrame_spherical keys delta s))) /\
  (forall frames s,
      polar_ok (phi s) ->
      polar_ok (phi (orbit frames s))) /\
  (forall frames s, radius (orbit frames s) = radius s) /\
  (forall time delta now st,
      let keys := arrowKeys st in
      left keys || right keys || up keys || down keys = true ->
      let before :=
        setFromVector3 (subVectors (cam_position (camera st)) target) in
      let after := useFrame_spherical keys delta before in
      camera (frame time delta now st)
      = mkCamera (addVectors target (setFromSpherical after)) target /\
      radius after = radius before /\
      (polar_ok (phi before) \/ up keys || down keys = true ->
       polar_ok (phi after))) /\
  (forall time delta now st,
      let keys := arrowKeys st in
      left keys || right keys || up keys || down keys = false ->
      useFrame_camera setFromVector3 setFromSpherical delta st = st /\
      camera (frame time delta now st) = camera st).
Proof.
  split; [| split; [| split; [| split]]].
  - intros keys delta s. apply useFrame_spherical_clamps.
  - intros frames. unfold orbit.
    induction frames as [| [keys delta] frames IH]; intros s Hok.
    + exact Hok.
    + cbn [fold_left]. apply IH. apply useFrame_spherical_keeps. exact Hok.
  - intros frames. unfold orbit.
    induction frames as [| [keys delta] frames IH]; intros s.
    + reflexivity.
    + cbn [fold_left]. rewrite IH. apply useFrame_spherical_radius.
  - intros time delta now st keys Hkeys before after.
    split; [| split].
    + rewrite useFrame_camera_only. unfold useFrame_camera.
      fold keys. rewrite Hkeys. reflexivity.
    + apply useFrame_spherical_radius.
    + intros [Hok | Hud].
      * apply useFrame_spherical_keeps. exact Hok.
      * apply useFrame_spherical_clamps. exact Hud.
  - intros time delta now st keys Hkeys.
    assert (Hcam :
      useFrame_camera setFromVector3 setFromSpherical delta st = st).
    { unfold useFrame_camera. fold keys. rewrite Hkeys. reflexivity. }
    split; [exact Hcam |].
    rewrite useFrame_camera_only, Hcam. reflexivity.
Qed.

End Orbit.

(** ** Audio volume *)

Lemma useFrame_volume_spec (d : Q) : useFrame_volume d = spec_volume d.
Proof. reflexivity. Qed.

Lemma useFrame_volume_bounds (d : Q) : 0.2 <= useFrame_volume d <= 1.0.
Proof.
  unfold useFrame_volume. split.
  - apply Q.le_max_l.
  - apply Q.max_lub; [lra | apply Q.le_min_l].
Qed.

Lemma useFrame_volume_antitone (d1 d2 : Q) :
  d1 <= d2 -> useFrame_volume d2 <= useFrame_volume d1.
Proof.
  intros H. unfold useFrame_volume.
  apply Q.max_le_compat_l, Q.min_le_compat_l.
  assert (Hn : Qmax 0 (Qmin 1 ((d1 - 40) / (1000 - 40)))
               <= Qmax 0 (Qmin 1 ((d2 - 40) / (1000 - 40)))).
  { apply Q.max_le_compat_l, Q.min_le_compat_l. qlra. }
  lra.
Qed.

Lemma useFrame_volume_at_40 : useFrame_volume 40 == 1.0.
Proof. reflexivity. Qed.

Lemma useFrame_volume_at_1000 : useFrame_volume 1000 == 0.2.
Proof. reflexivity. Qed.

Section Audio.

Variable distanceTo : Vector3 -> Vector3 -> Q.
Variable setFromVector3 : Vector3 -> Spherical.
Variable setFromSpherical : Spherical -> Vector3.
Variable Math_sin : Q -> Q.

Let frame := useFrame distanceTo setFromVector3 setFromSpherical Math_sin.

(** Only the audio step of a frame sets the volume. *)
Lemma useFrame_audio_only (time delta now : Q) (st : Scene) :
  positionalAudio (frame time delta now st)
  = positionalAudio (useFrame_audio distanceTo st).
Proof.
  unfold frame, useFrame, useFrame_audio.
  destruct (positionalAudio st); cbn;
    unfold useFrame_camera; cbn;
    destruct (left (arrowKeys st) || right (arrowKeys st)
              || up (arrowKeys st) || down (arrowKeys st)); cbn;
    unfold useFrame_display; cbn;
    destruct (rgbDisplay st); cbn;
    unfold useFrame_preview; cbn;
    destruct (isHolding st); cbn;
    destruct (holdStartPosition st); cbn;
    destruct (previewRef st); cbn;
    destruct (isSpacebarHeld st); cbn; reflexivity.
Qed.

(** C9. A frame sets the volume of the positional audio to
    [clamp(1.0 - clamp((distance - 40) / (1000 - 40), 0, 1) * 0.9,
    0.2, 1.0)] for the camera-to-target distance; that volume does not
    increase with the distance and is never below 0.2. *)
Theorem C9_volume :
  (forall time delta now st volume,
      positionalAudio st = Some volume ->
      let distance := distanceTo (cam_position (camera st)) target in
      positionalAudio (frame time delta now st)
      = Some (clamp (1.0 - clamp ((distance - 40) / (1000 - 40)) 0 1 * 0.9)
                    0.2 1.0)) /\
  (forall d1 d2, d1 <= d2 -> spec_volume d2 <= spec_volume d1) /\
  (forall d, 0.2 <= spec_volume d <= 1.0).
Proof.
  split; [| split].
  - intros time delta now st volume Haudio distance.
    rewrite useFrame_audio_only. unfold useFrame_audio.
    rewrite Haudio. reflexivity.
  - intros d1 d2 H. rewrite <- !useFrame_volume_spec.
    apply useFrame_volume_antitone. exact H.
  - intros d. rewrite <- useFrame_volume_spec.
    apply useFrame_volume_bounds.
Qed.

(** C10, the claim refuted: at distance 1000 the volume handed to
    [setVolume] is 0.2, not 0.1; 0.1 is the value before the last
    clamp. *)
Lemma C10_counterexample :
  let st :=
    set_camera (mkCamera (mkVector3 1000 10 0) target) initialScene in
  demo_distanceTo (cam_position (camera st)) target == 1000 /\
  (exists volume,
      positionalAudio (useFrame demo_distanceTo demo_setFromVector3
                                demo_setFromSpherical demo_sin 0 0 0 st)
      = Some volume /\ volume == 0.2 /\ ~ volume == 0.1) /\
  1.0 - clamp ((1000 - 40) / (1000 - 40)) 0 1 * 0.9 == 0.1.
Proof.
  split; [reflexivity |]. split; [| reflexivity].
  eexists. split; [reflexivity |]. split; [reflexivity | discriminate].
Qed.

(** C10, as the code has it. At distance 40 the volume is 1.0 and at
    distance 1000 it is 0.2; below 40 it stays 1.0 and beyond 1000 it
    stays 0.2. *)
Theorem C10_volume_ends :
  useFrame_volume 40 == 1.0 /\
  useFrame_volume 1000 == 0.2 /\
  (forall d, d <= 40 -> useFrame_volume d == 1.0) /\
  (forall d, 1000 <= d -> useFrame_volume d == 0.2).
Proof.
  split; [reflexivity |]. split; [reflexivity |]. split.
  - intros d Hd. apply Qle_antisym.
    + apply useFrame_volume_bounds.
    + rewrite <- useFrame_volume_at_40.
      apply useFrame_volume_antitone. exact Hd.
  - intros d Hd. apply Qle_antisym.
    + rewrite <- useFrame_volume_at_1000.
      apply useFrame_volume_antitone. exact Hd.
    + apply useFrame_volume_bounds.
Qed.

End Audio.

(** ** The statements on concrete data *)

(** Closed comparisons of literals, by evaluation. *)
Ltac by_evaluation :=
  vm_compute;
  repeat match goal with |- _ /\ _ => split end;
  solve [reflexivity | discriminate].

(** 1500 ms into [demo_session]: the size is within its limits. *)
Lemma C1_hold_size_witness :
  isHolding demo_session = true /\
  holdStartPosition demo_session = Some (mkVector3 12 0 (-7)) /\
  holdStartTime demo_session <= 2500 /\
  5 <= 5 + 45 * Qmin (2500 - 1000) 3000 / 3000 <= 50.
Proof.
  assert (Hnow : holdStartTime demo_session <= 2500) by by_evaluation.
  split; [reflexivity |]. split; [reflexivity |]. split; [exact Hnow |].
  exact (proj1 (proj2 (proj2
           (C1_hold_size demo_distanceTo demo_setFromVector3
                         demo_setFromSpherical demo_sin 1 (1 # 60) 2500
                         demo_session (mkVector3 12 0 (-7))
                         eq_refl eq_refl Hnow)))).
Defined.

(** Key "1" down at 0 ms and up at 3000 ms, from the initial colour. *)
Lemma C3_commit_wraps_witness :
  get_channel Channel.K1
    (globalRGB (handleKeyUp "1" 3000 (handleKeyDown "1" 0 initialScene)))
  = ((255 + colorChange (3000 - 0)) mod 256)%Z.
Proof.
  assert (Hv : (0 <= 255 < 256)%Z) by by_evaluation.
  assert (Hd : 0 <= 3000 - 0) by by_evaluation.
  exact (proj1 (C3_commit_wraps demo_distanceTo demo_setFromVector3
                                demo_setFromSpherical demo_sin)
               "1"%string Channel.K1 3000
               (handleKeyDown "1" 0 initialScene) eq_refl Hv Hd).
Defined.

(** Key "1" held since 0 ms, seen at 6500 ms: the preview is that of
    the hold's own delta, which is at least 510 by then. *)
Lemma C4_preview_witness :
  get_channel Channel.K1
    (previewRGB (globalRGB (handleKeyDown "1" 0 initialScene))
                (keyHoldState (handleKeyDown "1" 0 initialScene)) 6500)
  = ((255 + colorChange (6500 - 0)) mod 256)%Z /\
  (255 * 2 <= colorChange (6500 - 0))%Z.
Proof.
  assert (Hv : (0 <= 255 < 256)%Z) by by_evaluation.
  assert (He : 0 <= 6500 - 0) by by_evaluation.
  assert (Hn : (0 <= 2)%Z) by by_evaluation.
  assert (Hlow : 3000 * inject_Z 2 <= 6500 - 0) by by_evaluation.
  destruct (C4_preview demo_distanceTo demo_setFromVector3
                       demo_setFromSpherical demo_sin "1" Channel.K1
                       1 (1 # 60) 6500
                       (handleKeyDown "1" 0 initialScene)
                       eq_refl eq_refl Hv He)
    as (Hvalue & _ & _ & _ & _ & Hgrowth).
  split; [exact Hvalue | exact (Hgrowth 2%Z Hn Hlow)].
Defined.

(** A repeat of "1" at 500 ms after its press at 0 ms. *)
Lemma C6_repeat_keydown_witness :
  handleKeyDown "1" 500 (handleKeyDown "1" 0 initialScene)
  = handleKeyDown "1" 0 initialScene.
Proof.
  exact (proj1 (C6_repeat_keydown demo_distanceTo demo_setFromVector3
                                  demo_setFromSpherical demo_sin)
               "1"%string Channel.K1 500
               (handleKeyDown "1" 0 initialScene) eq_refl eq_refl).
Defined.

(** A primary-button press whose ray misses the water and runs upwards:
    the session is anchored at the origin. *)
Lemma C7_anchor_witness :
  holdStartPosition
    (handleMouseDown 0
       (raycasterOf [] (mkVector3 30 50 200) (mkVector3 0 1 0)) 1000
       initialScene)
  = Some (mkVector3 0 0 0).
Proof.
  exact (proj2 (proj2
           (proj1 (C7_anchor 0
                     (raycasterOf [] (mkVector3 30 50 200) (mkVector3 0 1 0))
                     1000 initialScene)
                  eq_refl))).
Defined.

(** Up held for a long frame, from a polar angle of 1.3: the angle stops
    at the lower limit. *)
Lemma C8_polar_angle_clamped_witness :
  polar_ok
    (phi (useFrame_spherical (mkArrowKeys true false false false) 5
                             (mkSpherical 206 1.3 0.15))).
Proof.
  exact (proj1 (C8_polar_angle_clamped demo_distanceTo demo_setFromVector3
                                       demo_setFromSpherical demo_sin)
               (mkArrowKeys true false false false) 5
               (mkSpherical 206 1.3 0.15) eq_refl).
Defined.

(** A frame of the initial scene sets the volume from the distance. *)
Lemma C9_volume_witness :
  positionalAudio
    (useFrame demo_distanceTo demo_setFromVector3 demo_setFromSpherical
              demo_sin 0 (1 # 60) 0 initialScene)
  = Some (clamp (1.0 - clamp ((demo_distanceTo (mkVector3 30 50 200) target
                               - 40) / (1000 - 40)) 0 1 * 0.9)
                0.2 1.0).
Proof.
  exact (proj1 (C9_volume demo_distanceTo demo_setFromVector3
                          demo_setFromSpherical demo_sin)
               0 (1 # 60) 0 initialScene 1 eq_refl).
Defined.

(** At distance 10, nearer than 40, the volume is 1.0. *)
Lemma C10_volume_ends_witness : useFrame_volume 10 == 1.0.
Proof.
  assert (Hd : 10 <= 40) by by_evaluation.
  exact (proj1 (proj2 (proj2 C10_volume_ends)) 10 Hd).
Defined.

(** ** Scenarios of the specification, run on the model *)

(** Pointer down and up at the same instant over the water, no spacebar:
    a plain box of size 5, resting on the anchor. *)
Example scenario_click :
  let events :=
    [MouseDown 0 (raycasterOf [mkVector3 12 0 (-7)] (mkVector3 30 50 200)
                              (mkVector3 0 (-1) 0)) 1000;
     MouseUp 0 1000] in
  let st := run demo_distanceTo demo_setFromVector3 demo_setFromSpherical
                demo_sin events initialScene in
  map shape_summary (spawnedCubes st) = [(5, 0%Z, 0)] /\
  map (fun cube => Qred (y (position cube))) (spawnedCubes st) = [5 # 2] /\
  isHolding st = false.
Proof. vm_compute. repeat split. Qed.

(** Spacebar held throughout, pointer held 3000 ms, with a frame at the
    moment of release: a rounded box of size 50 and corner radius 25. *)
Example scenario_full_hold :
  let events :=
    [KeyDown " " 900;
     MouseDown 0 (raycasterOf [mkVector3 12 0 (-7)] (mkVector3 30 50 200)
                              (mkVector3 0 (-1) 0)) 1000;
     Frame 2 (1 # 60) 2500;
     Frame 2.5 (1 # 60) 4000;
     MouseUp 0 4000] in
  let st := run demo_distanceTo demo_setFromVector3 demo_setFromSpherical
                demo_sin events initialScene in
  map shape_summary (spawnedCubes st) = [(50, 8%Z, 25)].
Proof. vm_compute. reflexivity. Qed.

(** Pointer held 1500 ms, spacebar down for the first 750 ms only: the
    roundness stays at the value of the last frame with the spacebar
    down, (size at 750 ms / 2) * 0.25. *)
Example scenario_released_modifier :
  let events :=
    [KeyDown " " 1000;
     MouseDown 0 (raycasterOf [mkVector3 12 0 (-7)] (mkVector3 30 50 200)
                              (mkVector3 0 (-1) 0)) 1000;
     Frame 1 (1 # 60) 1750;
     KeyUp " " 1750;
     Frame 2 (1 # 60) 2500;
     MouseUp 0 2500] in
  let st := run demo_distanceTo demo_setFromVector3 demo_setFromSpherical
                demo_sin events initialScene in
  map shape_summary (spawnedCubes st)
  = [(Qred (5 + 45 * (1500 / 3000)), 8%Z,
      Qred ((5 + 45 * (750 / 3000)) / 2 * 0.25))].
Proof. vm_compute. reflexivity. Qed.

(** * Further properties of the handlers *)

(** ** Keyboard *)

Lemma handleKeyDown_steps (key : string) (now : Q) (st : Scene) :
  handleKeyDown key now st = keyDown_channel key now (key_flags true key st).
Proof. reflexivity. Qed.

Lemma handleKeyUp_steps (key : string) (now : Q) (st : Scene) :
  handleKeyUp key now st = keyUp_channel key now (key_flags false key st).
Proof. reflexivity. Qed.

Lemma same_but_flags_refl (s : Scene) : same_but_flags s s.
Proof. repeat split. Qed.

Lemma same_but_flags_trans (s t u : Scene) :
  same_but_flags s t -> same_but_flags t u -> same_but_flags s u.
Proof.
  unfold same_but_flags. intros H1 H2.
  repeat match goal with H : _ /\ _ |- _ => destruct H end.
  repeat split; congruence.
Qed.

Lemma when_same_but_flags (test : bool) (f : Scene -> Scene) (s t : Scene) :
  (forall u, same_but_flags u (f u)) ->
  same_but_flags s t -> same_but_flags s (when test f t).
Proof.
  intros Hf Hst. unfold when. destruct test; [| exact Hst].
  eapply same_but_flags_trans; [exact Hst | apply Hf].
Qed.

Lemma key_flags_same (v : bool) (key : string) (st : Scene) :
  same_but_flags st (key_flags v key st).
Proof.
  unfold key_flags.
  repeat (apply when_same_but_flags; [intros u; repeat split |]).
  apply same_but_flags_refl.
Qed.

Lemma untracked_tests (key : string) :
  tracked key = false ->
  key_flags true key = (fun st => st) /\
  key_flags false key = (fun st => st) /\
  Channel.of_key key = None.
Proof.
  unfold tracked. intros H.
  repeat match type of H with
         | (_ || _ = false) => apply orb_false_elim in H as [H ?]
         end.
  unfold key_flags, Channel.of_key, when.
  repeat match goal with E : String.eqb key _ = false |- _ =>
                           rewrite E; clear E end.
  repeat split.
Qed.

(** X1. A key that is none of the arrows, the spacebar and "1" to "4"
    is ignored: its key-down and its key-up leave the whole state as it
    is. *)
Theorem X1_other_keys_ignored (key : string) (now : Q) (st : Scene) :
  tracked key = false ->
  handleKeyDown key now st = st /\ handleKeyUp key now st = st.
Proof.
  intros Hkey. destruct (untracked_tests key Hkey) as (Hdown & Hup & Hnone).
  rewrite handleKeyDown_steps, handleKeyUp_steps.
  unfold keyDown_channel, keyUp_channel. rewrite Hdown, Hup, Hnone.
  split; reflexivity.
Qed.

(** X2. For an arrow key or the spacebar, a repeated key-down changes
    nothing more than the first, a key-up after a key-down ends where the
    key-up alone would, and neither touches the colour, the channel hold
    states or the pointer session. *)
Theorem X2_flag_keys (key : string) (t1 t2 : Q) (st : Scene) :
  In key flag_keys ->
  handleKeyDown key t2 (handleKeyDown key t1 st) = handleKeyDown key t1 st /\
  handleKeyUp key t2 (handleKeyDown key t1 st) = handleKeyUp key t2 st /\
  same_but_flags st (handleKeyDown key t1 st) /\
  same_but_flags st (handleKeyUp key t1 st).
Proof.
  intros Hkey. unfold flag_keys in Hkey. cbn [In] in Hkey.
  repeat match goal with H : _ \/ _ |- _ => destruct H as [<- | H] end;
    try contradiction;
    (split; [reflexivity |]); (split; [reflexivity |]);
    split; repeat split.
Qed.

(** X3. A key-up of a channel key writes that channel and that key's
    hold state and nothing else: the other channels, the other hold
    states, the flags and every other field stay as they were. *)
Theorem X3_keyUp_frame (key : string) (k k' : Channel.Key) (now : Q)
  (st : Scene) :
  Channel.of_key key = Some k ->
  k' <> k ->
  get_channel k' (globalRGB (handleKeyUp key now st))
  = get_channel k' (globalRGB st) /\
  get_hold k' (keyHoldState (handleKeyUp key now st))
  = get_hold k' (keyHoldState st) /\
  get_hold k (keyHoldState (handleKeyUp key now st))
  = Channel.mkHold false 0 /\
  arrowKeys (handleKeyUp key now st) = arrowKeys st /\
  isSpacebarHeld (handleKeyUp key now st) = isSpacebarHeld st /\
  same_outside_keyboard st (handleKeyUp key now st).
Proof.
  intros Hk Hne. channel_cases key k Hk; destruct k';
    try contradiction; repeat split.
Qed.

Lemma Qfloor_unit (q : Q) : 0 <= q -> q < 1 -> Qfloor q = 0%Z.
Proof.
  intros H0 H1.
  assert (Hlo : (0 <= Qfloor q)%Z)
    by (change 0%Z with (Qfloor 0); apply Qfloor_resp_le; exact H0).
  assert (Hhi : inject_Z (Qfloor q) < 1)
    by (eapply Qle_lt_trans; [apply Qfloor_le | exact H1]).
  unfold Qlt in Hhi. cbn in Hhi. lia.
Qed.

(** X4. A tap on a channel key of at most 11 ms commits a delta of 0,
    so the channel keeps its value; a hold of 12 ms or more commits a
    delta of at least 1. *)
Theorem X4_short_tap (key : string) (k : Channel.Key) (t0 t1 : Q)
  (st : Scene) :
  Channel.of_key key = Some k ->
  Channel.isHolding (get_hold k (keyHoldState st)) = false ->
  (0 <= get_channel k (globalRGB st) < 256)%Z ->
  t0 <= t1 ->
  (t1 <= t0 + 11 ->
   colorChange (t1 - t0) = 0%Z /\
   get_channel k (globalRGB (handleKeyUp key t1 (handleKeyDown key t0 st)))
   = get_channel k (globalRGB st)) /\
  (t0 + 12 <= t1 -> (1 <= colorChange (t1 - t0))%Z).
Proof.
  intros Hk Hup Hv H01. split.
  - intros Hshort.
    assert (Hzero : colorChange (t1 - t0) = 0%Z).
    { unfold colorChange. apply Qfloor_unit; qlra. }
    split; [exact Hzero |].
    destruct (press_release key k t0 t1 st Hk Hup) as [Hc _].
    rewrite Hc, Hzero, Z.add_0_r. apply Z.rem_small. lia.
  - intros Hlong. unfold colorChange.
    apply (Qfloor_resp_le 1 ((t1 - t0) / 3000 * 255)). qlra.
Qed.

(** ** What a frame reads and what it writes *)

Lemma same_input_state_refl (s : Scene) : same_input_state s s.
Proof. repeat split. Qed.

Lemma same_input_state_trans (s t u : Scene) :
  same_input_state s t -> same_input_state t u -> same_input_state s u.
Proof.
  unfold same_input_state. intros H1 H2.
  repeat match goal with H : _ /\ _ |- _ => destruct H end.
  repeat split; congruence.
Qed.

Lemma useFrame_preview_reads (now : Q) (st : Scene) :
  same_input_state st (useFrame_preview now st) /\
  spawnedCubes (useFrame_preview now st) = spawnedCubes st /\
  maxRoundnessAchieved (useFrame_preview now st)
  = match isHolding st, holdStartPosition st, isSpacebarHeld st with
    | true, Some _, true =>
        Qmax (maxRoundnessAchieved st)
             (roundness_at (now - holdStartTime st))
    | _, _, _ => maxRoundnessAchieved st
    end /\
  (isHolding st = false -> previewRef (useFrame_preview now st) = None).
Proof.
  unfold useFrame_preview.
  destruct (isHolding st), (holdStartPosition st),
    (previewRef st) eqn:Hpreview, (isSpacebarHeld st);
    cbn; repeat split; intros;
    first [reflexivity | discriminate | exact Hpreview].
Qed.

Section FrameEffect.

Variable distanceTo : Vector3 -> Vector3 -> Q.
Variable setFromVector3 : Vector3 -> Spherical.
Variable setFromSpherical : Spherical -> Vector3.
Variable Math_sin : Q -> Q.

Let frame := useFrame distanceTo setFromVector3 setFromSpherical Math_sin.
Let prefix :=
  before_preview distanceTo setFromVector3 setFromSpherical Math_sin.

Lemma before_preview_reads (time delta now : Q) (st : Scene) :
  same_input_state st (prefix time delta now st) /\
  spawnedCubes (prefix time delta now st)
  = map (animateCube Math_sin time) (spawnedCubes st).
Proof.
  unfold prefix, before_preview.
  set (s1 := useFrame_audio distanceTo st).
  assert (H1 : same_input_state st s1 /\ spawnedCubes s1 = spawnedCubes st).
  { subst s1. unfold useFrame_audio.
    destruct (positionalAudio st); repeat split. }
  set (s2 := useFrame_camera setFromVector3 setFromSpherical delta s1).
  assert (H2 : same_input_state s1 s2 /\ spawnedCubes s2 = spawnedCubes s1).
  { subst s2. unfold useFrame_camera.
    destruct (left (arrowKeys s1) || right (arrowKeys s1)
              || up (arrowKeys s1) || down (arrowKeys s1)); repeat split. }
  set (s3 := useFrame_cubes Math_sin time s2).
  assert (H3 : same_input_state s2 s3 /\
               spawnedCubes s3
               = map (animateCube Math_sin time) (spawnedCubes s2))
    by (subst s3; repeat split).
  assert (H4 : same_input_state s3 (useFrame_display now s3) /\
               spawnedCubes (useFrame_display now s3) = spawnedCubes s3).
  { unfold useFrame_display. destruct (rgbDisplay s3); repeat split. }
  destruct H1 as [H1 C1], H2 as [H2 C2], H3 as [H3 C3], H4 as [H4 C4].
  split.
  - eapply same_input_state_trans; [exact H1 |].
    eapply same_input_state_trans; [exact H2 |].
    eapply same_input_state_trans; [exact H3 | exact H4].
  - rewrite C4, C3, C2, C1. reflexivity.
Qed.

(** What a frame does to the fields the handlers share. *)
Lemma useFrame_effect (time delta now : Q) (st : Scene) :
  same_input_state st (frame time delta now st) /\
  spawnedCubes (frame time delta now st)
  = map (animateCube Math_sin time) (spawnedCubes st) /\
  maxRoundnessAchieved (frame time delta now st)
  = match isHolding st, holdStartPosition st, isSpacebarHeld st with
    | true, Some _, true =>
        Qmax (maxRoundnessAchieved st)
             (roundness_at (now - holdStartTime st))
    | _, _, _ => maxRoundnessAchieved st
    end /\
  (isHolding st = false -> previewRef (frame time delta now st) = None).
Proof.
  change (frame time delta now st)
    with (useFrame_preview now (prefix time delta now st)).
  destruct (before_preview_reads time delta now st) as [Hin Hcubes].
  destruct (before_preview_inputs distanceTo setFromVector3 setFromSpherical
                                  Math_sin time delta now st)
    as (E1 & E2 & E3 & E4 & E5 & _).
  fold prefix in E1, E2, E3, E4, E5.
  destruct (useFrame_preview_reads now (prefix time delta now st))
    as (Pin & Pcubes & Pmax & Pnone).
  split; [eapply same_input_state_trans; eassumption |].
  split; [rewrite Pcubes; exact Hcubes |].
  split.
  - rewrite Pmax, E1, E2, E3, E4, E5. reflexivity.
  - intros Hup. apply Pnone. rewrite E1. exact Hup.
Qed.

End FrameEffect.

(** ** Roundness as a function of the hold duration *)

Lemma currentRoundness_held (m d : Q) :
  useFrame_currentRoundness true m d = roundness_at d.
Proof. reflexivity. Qed.

Lemma currentSize_mono (d1 d2 : Q) :
  d1 <= d2 -> useFrame_currentSize d1 <= useFrame_currentSize d2.
Proof.
  intros H. rewrite !useFrame_currentSize_spec. apply spec_size_mono, H.
Qed.

Lemma currentSize_min (d : Q) : 0 <= d -> 5 <= useFrame_currentSize d.
Proof.
  intros H. rewrite useFrame_currentSize_spec. apply (spec_size_bounds d H).
Qed.

Lemma roundness_at_nonneg (d : Q) : 0 <= d -> 0 <= roundness_at d.
Proof.
  intros Hd. unfold roundness_at, useFrame_currentRoundness.
  pose proof (normalized_bounds d Hd) as [Hn _].
  pose proof (currentSize_min d Hd) as Hs.
  apply Qmult_le_0_compat; [qlra | exact Hn].
Qed.

Lemma roundness_at_half (d : Q) :
  0 <= d -> roundness_at d <= useFrame_currentSize d / 2.
Proof.
  intros Hd. unfold roundness_at, useFrame_currentRoundness.
  pose proof (normalized_bounds d Hd) as [Hn0 Hn1].
  pose proof (currentSize_min d Hd) as Hs.
  set (n := Qmin d 3000 / 3000) in *.
  set (s := useFrame_currentSize d) in *.
  assert (Hprod : 0 <= (s / 2) * (1 - n))
    by (apply Qmult_le_0_compat; qlra).
  qlra.
Qed.

Lemma roundness_at_mono (d1 d2 : Q) :
  0 <= d1 -> d1 <= d2 -> roundness_at d1 <= roundness_at d2.
Proof.
  intros H1 H12. unfold roundness_at, useFrame_currentRoundness.
  assert (H2 : 0 <= d2) by lra.
  pose proof (normalized_bounds d1 H1) as [Hn1 _].
  pose proof (currentSize_min d2 H2) as Hs2.
  pose proof (currentSize_mono d1 d2 H12) as Hs.
  assert (Hn : Qmin d1 3000 / 3000 <= Qmin d2 3000 / 3000).
  { assert (Hm : Qmin d1 3000 <= Qmin d2 3000)
      by (apply Q.min_le_compat_r; exact H12).
    qlra. }
  set (n1 := Qmin d1 3000 / 3000) in *.
  set (n2 := Qmin d2 3000 / 3000) in *.
  set (s1 := useFrame_currentSize d1) in *.
  set (s2 := useFrame_currentSize d2) in *.
  assert (Ha : 0 <= (s2 / 2) * (n2 - n1))
    by (apply Qmult_le_0_compat; qlra).
  assert (Hb : 0 <= ((s2 - s1) / 2) * n1)
    by (apply Qmult_le_0_compat; qlra).
  qlra.
Qed.

(** ** What each handler writes *)

Lemma get_set_hold_other (k k' : Channel.Key) (h : Channel.Hold)
  (s : KeyHoldState) :
  k' <> k -> get_hold k' (set_hold k h s) = get_hold k' s.
Proof. destruct k, k'; intros H; try contradiction; reflexivity. Qed.

Lemma key_eq_dec (k k' : Channel.Key) : {k' = k} + {k' <> k}.
Proof. decide equality. Qed.

Lemma commit_in_range (k : Channel.Key) (delta : Z) (c : RGB) :
  (0 <= delta)%Z -> rgb_in_range c -> rgb_in_range (commit k delta c).
Proof.
  intros Hd (Hr & Hg & Hb & Ha).
  destruct k; unfold rgb_in_range; cbn; repeat split; try lia;
    apply Z.rem_bound_pos; lia.
Qed.

Lemma handleKeyDown_effect (key : string) (now : Q) (st : Scene) :
  same_session st (handleKeyDown key now st) /\
  globalRGB (handleKeyDown key now st) = globalRGB st /\
  keyHoldState (handleKeyDown key now st)
  = match Channel.of_key key with
    | Some k =>
        if Channel.isHolding (get_hold k (keyHoldState st))
        then keyHoldState st
        else set_hold k (Channel.mkHold true now) (keyHoldState st)
    | None => keyHoldState st
    end.
Proof.
  rewrite handleKeyDown_steps.
  destruct (key_flags_same true key st)
    as (E1 & E2 & E3 & E4 & E5 & E6 & E7 & _).
  unfold keyDown_channel, same_session. rewrite E6.
  destruct (Channel.of_key key) as [k |]; [| repeat split; assumption].
  destruct (Channel.isHolding (get_hold k (keyHoldState st)));
    cbn; repeat split; assumption.
Qed.

Lemma handleKeyUp_effect (key : string) (now : Q) (st : Scene) :
  same_session st (handleKeyUp key now st) /\
  match Channel.of_key key with
  | Some k =>
      globalRGB (handleKeyUp key now st)
      = commit k
          (colorChange
             (now - Channel.startTime (get_hold k (keyHoldState st))))
          (globalRGB st) /\
      keyHoldState (handleKeyUp key now st)
      = set_hold k (Channel.mkHold false 0) (keyHoldState st)
  | None =>
      globalRGB (handleKeyUp key now st) = globalRGB st /\
      keyHoldState (handleKeyUp key now st) = keyHoldState st
  end.
Proof.
  rewrite handleKeyUp_steps.
  destruct (key_flags_same false key st)
    as (E1 & E2 & E3 & E4 & E5 & E6 & E7 & _).
  unfold keyUp_channel, same_session.
  destruct (Channel.of_key key) as [k |]; cbn;
    rewrite ?E5, ?E6; repeat split; assumption.
Qed.

Lemma handleMouseDown_effect (button : Z) (raycaster : Raycaster) (now : Q)
  (st : Scene) :
  globalRGB (handleMouseDown button raycaster now st) = globalRGB st /\
  keyHoldState (handleMouseDown button raycaster now st) = keyHoldState st /\
  spawnedCubes (handleMouseDown button raycaster now st) = spawnedCubes st /\
  if (button =? 0)%Z
  then isHolding (handleMouseDown button raycaster now st) = true /\
       holdStartTime (handleMouseDown button raycaster now st) = now /\
       holdStartPosition (handleMouseDown button raycaster now st)
       = Some (handleMouseDown_anchor raycaster) /\
       maxRoundnessAchieved (handleMouseDown button raycaster now st) = 0
  else handleMouseDown button raycaster now st = st.
Proof.
  unfold handleMouseDown. destruct (button =? 0)%Z; cbn; repeat split.
Qed.

Lemma handleMouseUp_effect (button : Z) (now : Q) (st : Scene) :
  globalRGB (handleMouseUp button now st) = globalRGB st /\
  keyHoldState (handleMouseUp button now st) = keyHoldState st /\
  maxRoundnessAchieved (handleMouseUp button now st)
  = maxRoundnessAchieved st /\
  holdStartPosition (handleMouseUp button now st) = holdStartPosition st /\
  if (button =? 0)%Z && isHolding st
  then isHolding (handleMouseUp button now st) = false
  else handleMouseUp button now st = st.
Proof.
  unfold handleMouseUp.
  destruct (button =? 0)%Z, (isHolding st); cbn;
    try (repeat split; fail);
    destruct (holdStartPosition st) eqn:Hanchor; cbn; repeat split;
    exact Hanchor.
Qed.

(** ** The invariant of runs in clock order *)

Ltac split_scene_ok :=
  unfold scene_ok;
  split; [| split; [| split; [| split; [| split; [| intros Hheld]]]]].

Lemma scene_ok_later (t t' : Q) (st : Scene) :
  scene_ok t st -> t <= t' -> scene_ok t' st.
Proof.
  intros (H0 & Hrgb & Hstart & Hzero & Hmax & Hsess) Hle.
  split_scene_ok; try assumption.
  - lra.
  - intros k. specialize (Hstart k). lra.
  - destruct (Hsess Hheld) as (Ha & Hs & Hr).
    split; [exact Ha |]. split; [lra |].
    eapply Qle_trans; [exact Hr |]. apply roundness_at_mono; lra.
Qed.

Lemma initialScene_ok : scene_ok 0 initialScene.
Proof.
  split_scene_ok; cbn; try lra; try discriminate.
  - unfold rgb_in_range. cbn. lia.
  - intros k. destruct k; cbn; lra.
  - intros k _. destruct k; reflexivity.
Qed.

Lemma handleKeyDown_ok (key : string) (now : Q) (st : Scene) :
  scene_ok now st -> scene_ok now (handleKeyDown key now st).
Proof.
  intros (H0 & Hrgb & Hstart & Hzero & Hmax & Hsess).
  destruct (handleKeyDown_effect key now st)
    as ((S1 & S2 & S3 & S4 & _) & Ec & Eh).
  split_scene_ok; rewrite ?S1, ?S2, ?S3, ?S4, ?Ec, ?Eh in *;
    try assumption; try (apply Hsess; assumption).
  - intros k'. destruct (Channel.of_key key) as [k |]; [| apply Hstart].
    destruct (Channel.isHolding (get_hold k (keyHoldState st)));
      [apply Hstart |].
    destruct (key_eq_dec k k') as [-> | Hne].
    + rewrite get_set_hold. cbn. lra.
    + rewrite (get_set_hold_other k k' _ _ Hne). apply Hstart.
  - intros k'. destruct (Channel.of_key key) as [k |]; [| apply Hzero].
    destruct (Channel.isHolding (get_hold k (keyHoldState st)));
      [apply Hzero |].
    destruct (key_eq_dec k k') as [-> | Hne].
    + rewrite get_set_hold. cbn. discriminate.
    + rewrite (get_set_hold_other k k' _ _ Hne). apply Hzero.
Qed.

Lemma handleKeyUp_ok (key : string) (now : Q) (st : Scene) :
  scene_ok now st -> scene_ok now (handleKeyUp key now st).
Proof.
  intros (H0 & Hrgb & Hstart & Hzero & Hmax & Hsess).
  destruct (handleKeyUp_effect key now st) as ((S1 & S2 & S3 & S4 & _) & E).
  destruct (Channel.of_key key) as [k |]; destruct E as [Ec Eh];
    split_scene_ok; rewrite ?S1, ?S2, ?S3, ?S4, ?Ec, ?Eh in *;
    try assumption; try (apply Hsess; assumption).
  - apply commit_in_range; [| exact Hrgb].
    apply colorChange_nonneg. specialize (Hstart k). lra.
  - intros k'. destruct (key_eq_dec k k') as [-> | Hne].
    + rewrite get_set_hold. cbn. exact H0.
    + rewrite (get_set_hold_other k k' _ _ Hne). apply Hstart.
  - intros k'. destruct (key_eq_dec k k') as [-> | Hne].
    + rewrite get_set_hold. reflexivity.
    + rewrite (get_set_hold_other k k' _ _ Hne). apply Hzero.
Qed.

Lemma handleMouseDown_ok (button : Z) (raycaster : Raycaster) (now : Q)
  (st : Scene) :
  scene_ok now st -> scene_ok now (handleMouseDown button raycaster now st).
Proof.
  intros Hok.
  destruct (handleMouseDown_effect button raycaster now st)
    as (Ec & Eh & _ & E).
  destruct (button =? 0)%Z; [| rewrite E; exact Hok].
  destruct Hok as (H0 & Hrgb & Hstart & Hzero & Hmax & Hsess).
  destruct E as (E1 & E2 & E3 & E4).
  split_scene_ok; rewrite ?Ec, ?Eh, ?E1, ?E2, ?E3, ?E4 in *;
    try assumption; try lra.
  split; [discriminate |]. split; [lra |].
  apply roundness_at_nonneg. lra.
Qed.

Lemma handleMouseUp_ok (button : Z) (now : Q) (st : Scene) :
  scene_ok now st -> scene_ok now (handleMouseUp button now st).
Proof.
  intros Hok.
  destruct (handleMouseUp_effect button now st) as (Ec & Eh & Em & _ & E).
  destruct ((button =? 0)%Z && isHolding st); [| rewrite E; exact Hok].
  destruct Hok as (H0 & Hrgb & Hstart & Hzero & Hmax & Hsess).
  split_scene_ok; rewrite ?Ec, ?Eh, ?Em, ?E in *;
    try assumption; discriminate.
Qed.

Section Runs.

Variable distanceTo : Vector3 -> Vector3 -> Q.
Variable setFromVector3 : Vector3 -> Spherical.
Variable setFromSpherical : Spherical -> Vector3.
Variable Math_sin : Q -> Q.

Let frame := useFrame distanceTo setFromVector3 setFromSpherical Math_sin.
Let next := step distanceTo setFromVector3 setFromSpherical Math_sin.
Let exec := run distanceTo setFromVector3 setFromSpherical Math_sin.

Lemma useFrame_ok (time delta now : Q) (st : Scene) :
  scene_ok now st -> scene_ok now (frame time delta now st).
Proof.
  intros (H0 & Hrgb & Hstart & Hzero & Hmax & Hsess).
  destruct (useFrame_effect distanceTo setFromVector3 setFromSpherical
                            Math_sin time delta now st)
    as ((E1 & E2 & E3 & _ & _ & E6 & E7 & _) & _ & Em & _).
  fold frame in E1, E2, E3, E6, E7, Em.
  assert (Hmax' : maxRoundnessAchieved st
                  <= maxRoundnessAchieved (frame time delta now st)).
  { rewrite Em.
    destruct (isHolding st), (holdStartPosition st), (isSpacebarHeld st);
      try apply Qle_refl. apply Q.le_max_l. }
  split_scene_ok; rewrite ?E1, ?E2, ?E3, ?E6, ?E7 in *; try assumption.
  - lra.
  - destruct (Hsess Hheld) as (Ha & Hs & Hr).
    split; [exact Ha |]. split; [exact Hs |]. rewrite Em, Hheld.
    destruct (holdStartPosition st), (isSpacebarHeld st); try exact Hr.
    apply Q.max_lub; [exact Hr | apply Qle_refl].
Qed.

Lemma step_ok (t : Q) (st : Scene) (e : Event) :
  scene_ok t st -> t <= event_time e -> scene_ok (event_time e) (next st e).
Proof.
  intros Hok Hle.
  pose proof (scene_ok_later t (event_time e) st Hok Hle) as Hnow.
  destruct e; cbn in *.
  - apply handleKeyDown_ok, Hnow.
  - apply handleKeyUp_ok, Hnow.
  - apply handleMouseDown_ok, Hnow.
  - apply handleMouseUp_ok, Hnow.
  - apply useFrame_ok, Hnow.
Qed.

Lemma run_ok (events : list Event) (t : Q) (st : Scene) :
  scene_ok t st -> chronological t events ->
  scene_ok (last_time t events) (exec events st).
Proof.
  revert t st. unfold exec, run, last_time.
  induction events as [| e events IH]; intros t st Hok Hchron.
  - exact Hok.
  - destruct Hchron as [Hle Hrest]. cbn [fold_left].
    apply (IH (event_time e));
      [apply (step_ok t); assumption | exact Hrest].
Qed.

Lemma reachable_ok (events : list Event) :
  chronological 0 events ->
  scene_ok (last_time 0 events) (exec events initialScene).
Proof. apply run_ok, initialScene_ok. Qed.

End Runs.

(** ** Roundness, from the frames to the committed cube *)

Section CommittedRoundness.

Variable distanceTo : Vector3 -> Vector3 -> Q.
Variable setFromVector3 : Vector3 -> Spherical.
Variable setFromSpherical : Spherical -> Vector3.
Variable Math_sin : Q -> Q.

Let frame := useFrame distanceTo setFromVector3 setFromSpherical Math_sin.
Let exec := run distanceTo setFromVector3 setFromSpherical Math_sin.

(** C2. In a pointer-hold session of duration [d >= 0]: with the
    spacebar held, the frame's roundness is
    [(currentSize / 2) * min(d, 3000) / 3000], at most [currentSize / 2],
    and [maxRoundnessAchieved] becomes the maximum of its old value and
    that roundness; with the spacebar released, the preview's roundness
    is the old [maxRoundnessAchieved], which the frame leaves as it is;
    at pointer-up one cube is added to the scene, built from
    [maxRoundnessAchieved] as its roundness: a rounded box of corner
    radius [min(maxRoundnessAchieved, size / 2)] when that is positive, a
    plain box when it is 0, so that the corner radius of the committed
    cube is [maxRoundnessAchieved] itself whenever that lies between 0
    and half the committed size, as it does in every session reached
    from the initial scene by events in clock order. *)
Theorem C2_hold_roundness (time delta now : Q) (st : Scene) (p : Vector3) :
  isHolding st = true ->
  holdStartPosition st = Some p ->
  holdStartTime st <= now ->
  let d := now - holdStartTime st in
  let currentSize := useFrame_currentSize d in
  let currentRoundness :=
    useFrame_currentRoundness (isSpacebarHeld st)
                              (maxRoundnessAchieved st) d in
  (exists preview,
      previewRef (frame time delta now st) = Some preview /\
      geometry preview =
        (if Qlt_le_dec 0 currentRoundness
         then RoundedBoxGeometry currentSize currentSize currentSize 8
                (Qmin currentRoundness (currentSize / 2))
         else BoxGeometry currentSize currentSize currentSize)) /\
  (isSpacebarHeld st = true ->
     currentRoundness == (currentSize / 2) * Qmin d 3000 / 3000 /\
     currentRoundness <= currentSize / 2 /\
     maxRoundnessAchieved (frame time delta now st)
     = Qmax (maxRoundnessAchieved st) currentRoundness) /\
  (isSpacebarHeld st = false ->
     currentRoundness = maxRoundnessAchieved st /\
     maxRoundnessAchieved (frame time delta now st)
     = maxRoundnessAchieved st) /\
  (exists cube,
      spawnedCubes (handleMouseUp 0 now st) = spawnedCubes st ++ [cube] /\
      geometry cube =
        (if Qlt_le_dec 0 (maxRoundnessAchieved st)
         then RoundedBoxGeometry
                (handleMouseUp_size d) (handleMouseUp_size d)
                (handleMouseUp_size d) 8
                (Qmin (maxRoundnessAchieved st) (handleMouseUp_size d / 2))
         else BoxGeometry (handleMouseUp_size d) (handleMouseUp_size d)
                          (handleMouseUp_size d)) /\
      (0 <= maxRoundnessAchieved st ->
       maxRoundnessAchieved st <= handleMouseUp_size d / 2 ->
       geometry_radius (geometry cube) == maxRoundnessAchieved st) /\
      (forall events,
          st = exec events initialScene ->
          chronological 0 events ->
          last_time 0 events <= now ->
          geometry_radius (geometry cube) == maxRoundnessAchieved st)).
Proof.
  intros Hhold Hpos Hnow d currentSize currentRoundness.
  assert (Hd : 0 <= d) by (subst d; lra).
  destruct (useFrame_session distanceTo setFromVector3 setFromSpherical
                             Math_sin time delta now st p Hhold Hpos)
    as (Hprev & Hmax & _).
  fold d in Hprev, Hmax. fold frame in Hprev, Hmax.
  split; [exact Hprev |].
  split; [| split].
  - intros Hspace. subst currentRoundness. rewrite Hspace in *.
    unfold useFrame_currentRoundness. fold currentSize.
    split; [unfold Qdiv; ring |].
    split; [| exact Hmax].
    pose proof (normalized_bounds d Hd) as [Hn0 Hn1].
    assert (Hs : 5 <= currentSize).
    { subst currentSize. rewrite useFrame_currentSize_spec.
      apply (spec_size_bounds d Hd). }
    set (n := Qmin d 3000 / 3000) in *.
    assert (Hprod : 0 <= (currentSize / 2) * (1 - n)).
    { apply Qmult_le_0_compat; qlra. }
    qlra.
  - intros Hspace. subst currentRoundness. rewrite Hspace in *.
    split; [reflexivity | exact Hmax].
  - rewrite (handleMouseUp_session now st p Hhold Hpos). fold d.
    destruct (spawnCube_size p (handleMouseUp_size d)
                             (maxRoundnessAchieved st) now
                             (set_isHolding false st))
      as (cube & Hcubes & _ & Hshape).
    assert (Hradius :
      0 <= maxRoundnessAchieved st ->
      maxRoundnessAchieved st <= handleMouseUp_size d / 2 ->
      geometry_radius (geometry cube) == maxRoundnessAchieved st).
    { intros Hlow Hhigh. rewrite Hshape.
      destruct (Qlt_le_dec 0 (maxRoundnessAchieved st)) as [Hpos' | Hzero];
        cbn [geometry_radius].
      - apply Q.min_l. exact Hhigh.
      - lra. }
    exists cube. split; [exact Hcubes |]. split; [exact Hshape |].
    split; [exact Hradius |].
    intros events Hst Hchron Hlast.
    pose proof (reachable_ok distanceTo setFromVector3 setFromSpherical
                             Math_sin events Hchron) as Hok.
    fold exec in Hok. rewrite <- Hst in Hok.
    destruct (scene_ok_later _ now st Hok Hlast)
      as (_ & _ & _ & _ & Hlow & Hsess).
    destruct (Hsess Hhold) as (_ & Hstart & Hround).
    apply Hradius; [exact Hlow |].
    eapply Qle_trans; [exact Hround |].
    apply (roundness_at_half (now - holdStartTime st)). lra.
Qed.

End CommittedRoundness.

Lemma channel_in_range (k : Channel.Key) (c : RGB) :
  rgb_in_range c -> (0 <= get_channel k c < 256)%Z.
Proof. intros (Hr & Hg & Hb & Ha). destruct k; assumption. Qed.

Lemma animateCube_identity (sin : Q -> Q) (time : Q) (cube : Mesh) :
  cube_identity (animateCube sin time cube) = cube_identity cube.
Proof. reflexivity. Qed.

Lemma handleMouseUp_cubes (button : Z) (now : Q) (st : Scene) :
  exists added,
    spawnedCubes (handleMouseUp button now st) = spawnedCubes st ++ added /\
    (List.length added <= 1)%nat.
Proof.
  unfold handleMouseUp.
  destruct (negb (button =? 0)%Z || negb (isHolding st));
    [exists []; rewrite app_nil_r; split; [reflexivity | cbn; lia] |].
  destruct (holdStartPosition st);
    [| exists []; rewrite app_nil_r; split; [reflexivity | cbn; lia]].
  eexists [_]. split; [reflexivity | cbn; lia].
Qed.

Section Reachable.

Variable distanceTo : Vector3 -> Vector3 -> Q.
Variable setFromVector3 : Vector3 -> Spherical.
Variable setFromSpherical : Spherical -> Vector3.
Variable Math_sin : Q -> Q.

Let frame := useFrame distanceTo setFromVector3 setFromSpherical Math_sin.
Let next := step distanceTo setFromVector3 setFromSpherical Math_sin.
Let exec := run distanceTo setFromVector3 setFromSpherical Math_sin.

(** X5. After any events in clock order from the initial scene, with
    non-negative clock readings, the four committed colour channels are
    within 0..255. *)
Theorem X5_colour_in_range (events : list Event) :
  chronological 0 events ->
  rgb_in_range (globalRGB (exec events initialScene)).
Proof.
  intros Hchron.
  destruct (reachable_ok distanceTo setFromVector3 setFromSpherical Math_sin
                         events Hchron) as (_ & Hrgb & _).
  exact Hrgb.
Qed.

(** X6. In a state reached from the initial scene by events in clock
    order, the key-up of a channel key that is not held still commits a
    delta: a key that is up has the start time 0, so the whole clock
    reading counts as the hold and the channel becomes
    [(v + delta) mod 256] for the delta of a hold of [now] ms, the value
    a key pressed at clock reading 0 would commit. *)
Theorem X6_unmatched_keyUp (events : list Event) (key : string)
  (k : Channel.Key) (now : Q) :
  let st := exec events initialScene in
  chronological 0 events ->
  last_time 0 events <= now ->
  Channel.of_key key = Some k ->
  Channel.isHolding (get_hold k (keyHoldState st)) = false ->
  Channel.startTime (get_hold k (keyHoldState st)) = 0 /\
  get_channel k (globalRGB (handleKeyUp key now st))
  = ((get_channel k (globalRGB st) + colorChange now) mod 256)%Z /\
  (forall n : Z,
      (0 <= n)%Z -> 3000 * inject_Z n <= now -> (255 * n <= colorChange now)%Z).
Proof.
  intros st Hchron Hnow Hk Hup.
  destruct (reachable_ok distanceTo setFromVector3 setFromSpherical Math_sin
                         events Hchron) as (H0 & Hrgb & _ & Hzero & _).
  fold exec in Hrgb, Hzero. fold st in Hrgb, Hzero.
  destruct (handleKeyUp_channel key k now st Hk) as [Hc _].
  split; [exact (Hzero k Hup) |]. split.
  - rewrite Hc, (Hzero k Hup).
    assert (Hd : 0 <= now - 0) by lra.
    rewrite rem_is_mod;
      [| apply (channel_in_range k _ Hrgb) | apply colorChange_nonneg, Hd].
    rewrite (colorChange_comp (now - 0) now) by ring. reflexivity.
  - intros n Hn Hlow. unfold colorChange.
    rewrite <- (Qfloor_Z (255 * n)). apply Qfloor_resp_le.
    rewrite inject_Z_mult. change (inject_Z 255) with 255. qlra.
Qed.

(** X7. In a session reached from the initial scene by events in clock
    order, the roundness achieved so far is between 0 and half the size
    a release would commit, so the cap [min(roundness, size / 2)] of the
    rounded box never cuts it: the committed corner radius is the
    roundness achieved. *)
Theorem X7_radius_uncut (events : list Event) (now : Q) :
  let st := exec events initialScene in
  let size := handleMouseUp_size (now - holdStartTime st) in
  chronological 0 events ->
  last_time 0 events <= now ->
  isHolding st = true ->
  0 <= maxRoundnessAchieved st <= size / 2 /\
  Qmin (maxRoundnessAchieved st) (size / 2) == maxRoundnessAchieved st /\
  exists cube,
    spawnedCubes (handleMouseUp 0 now st) = spawnedCubes st ++ [cube] /\
    geometry cube =
      (if Qlt_le_dec 0 (maxRoundnessAchieved st)
       then RoundedBoxGeometry size size size 8
              (Qmin (maxRoundnessAchieved st) (size / 2))
       else BoxGeometry size size size).
Proof.
  intros st size Hchron Hnow Hheld.
  pose proof (reachable_ok distanceTo setFromVector3 setFromSpherical
                           Math_sin events Hchron) as Hok.
  fold exec in Hok. fold st in Hok.
  destruct (scene_ok_later _ now st Hok Hnow)
    as (_ & _ & _ & _ & Hmax & Hsess).
  destruct (Hsess Hheld) as (Hanchor & Hstart & Hround).
  assert (Hhalf : maxRoundnessAchieved st <= size / 2).
  { eapply Qle_trans; [exact Hround |].
    apply (roundness_at_half (now - holdStartTime st)). lra. }
  split; [split; assumption |].
  split; [apply Q.min_l; exact Hhalf |].
  destruct (holdStartPosition st) as [p |] eqn:Hp; [| contradiction].
  rewrite (handleMouseUp_session now st p Hheld Hp).
  destruct (spawnCube_size p size (maxRoundnessAchieved st) now
                           (set_isHolding false st))
    as (cube & Hcubes & _ & Hshape).
  exists cube. split; assumption.
Qed.

Lemma step_anchored (st : Scene) (e : Event) :
  anchored st -> anchored (next st e).
Proof.
  unfold anchored. intros Hanch. destruct e; cbn.
  - destruct (handleKeyDown_effect key now st) as ((E1 & _ & E3 & _) & _).
    rewrite E1, E3. exact Hanch.
  - destruct (handleKeyUp_effect key now st) as ((E1 & _ & E3 & _) & _).
    rewrite E1, E3. exact Hanch.
  - destruct (handleMouseDown_effect button raycaster now st)
      as (_ & _ & _ & E).
    destruct (button =? 0)%Z; [| rewrite E; exact Hanch].
    destruct E as (_ & _ & E3 & _). rewrite E3. discriminate.
  - destruct (handleMouseUp_effect button now st) as (_ & _ & _ & E4 & E).
    destruct ((button =? 0)%Z && isHolding st);
      [rewrite E; discriminate | rewrite E; exact Hanch].
  - destruct (useFrame_effect distanceTo setFromVector3 setFromSpherical
                              Math_sin time delta now st)
      as ((E1 & _ & E3 & _) & _).
    rewrite E1, E3. exact Hanch.
Qed.

Lemma run_anchored (events : list Event) (st : Scene) :
  anchored st -> anchored (exec events st).
Proof.
  revert st. unfold exec, run.
  induction events as [| e events IH]; intros st Hanch; [exact Hanch |].
  cbn [fold_left]. apply IH, step_anchored, Hanch.
Qed.

(** X8. Whatever the events from the initial scene, a frame leaves a
    preview mesh exactly when a pointer session is active: it builds one
    while the button is held and removes it once the button is up. *)
Theorem X8_preview_iff_holding (events : list Event) (time delta now : Q) :
  let st := exec (events ++ [Frame time delta now]) initialScene in
  (isHolding st = true -> exists preview, previewRef st = Some preview) /\
  (isHolding st = false -> previewRef st = None).
Proof.
  intros st. subst st. unfold exec, run. rewrite fold_left_app.
  cbn [fold_left step].
  set (st := fold_left _ events initialScene).
  assert (Hanch : anchored st).
  { apply (run_anchored events initialScene). intros H. discriminate. }
  destruct (useFrame_effect distanceTo setFromVector3 setFromSpherical
                            Math_sin time delta now st)
    as ((E1 & _) & _ & _ & Hnone).
  rewrite E1. split.
  - intros Hheld.
    destruct (holdStartPosition st) as [p |] eqn:Hp;
      [| destruct (Hanch Hheld); exact Hp].
    destruct (useFrame_session distanceTo setFromVector3 setFromSpherical
                               Math_sin time delta now st p Hheld Hp)
      as ((preview & Hprev & _) & _).
    exists preview. exact Hprev.
  - exact Hnone.
Qed.

(** X9. [maxRoundnessAchieved] never goes down except at a
    primary-button pointer-down, which sets it to 0: every other event
    leaves it as it is or raises it. *)
Theorem X9_roundness_monotone (st : Scene) (e : Event) :
  (is_primary_down e = false ->
   maxRoundnessAchieved st <= maxRoundnessAchieved (next st e)) /\
  (is_primary_down e = true -> maxRoundnessAchieved (next st e) = 0).
Proof.
  destruct e; cbn [is_primary_down next step]; subst next; cbn [step];
    (split; [intros Hprim | intros Hprim; try discriminate]).
  - destruct (handleKeyDown_effect key now st) as ((_ & _ & _ & E4 & _) & _).
    rewrite E4. apply Qle_refl.
  - destruct (handleKeyUp_effect key now st) as ((_ & _ & _ & E4 & _) & _).
    rewrite E4. apply Qle_refl.
  - destruct (handleMouseDown_effect button raycaster now st)
      as (_ & _ & _ & E).
    rewrite Hprim in E. rewrite E. apply Qle_refl.
  - destruct (handleMouseDown_effect button raycaster now st)
      as (_ & _ & _ & E).
    rewrite Hprim in E. apply E.
  - destruct (handleMouseUp_effect button now st) as (_ & _ & Em & _).
    rewrite Em. apply Qle_refl.
  - destruct (useFrame_effect distanceTo setFromVector3 setFromSpherical
                              Math_sin time delta now st)
      as (_ & _ & Em & _).
    rewrite Em.
    destruct (isHolding st), (holdStartPosition st), (isSpacebarHeld st);
      try apply Qle_refl. apply Q.le_max_l.
Qed.

Lemma step_cubes (st : Scene) (e : Event) :
  exists added,
    map cube_identity (spawnedCubes (next st e))
    = map cube_identity (spawnedCubes st) ++ added.
Proof.
  destruct e; subst next; cbn [step].
  - destruct (handleKeyDown_effect key now st) as ((_ & _ & _ & _ & E) & _).
    exists []. rewrite E, app_nil_r. reflexivity.
  - destruct (handleKeyUp_effect key now st) as ((_ & _ & _ & _ & E) & _).
    exists []. rewrite E, app_nil_r. reflexivity.
  - destruct (handleMouseDown_effect button raycaster now st)
      as (_ & _ & E & _).
    exists []. rewrite E, app_nil_r. reflexivity.
  - destruct (handleMouseUp_cubes button now st) as (added & E & _).
    exists (map cube_identity added). rewrite E, map_app. reflexivity.
  - destruct (useFrame_effect distanceTo setFromVector3 setFromSpherical
                              Math_sin time delta now st)
      as (_ & E & _).
    exists []. rewrite E, app_nil_r, map_map.
    apply map_ext. intros cube. apply animateCube_identity.
Qed.

(** X10. No event removes or rebuilds a spawned cube: after any events
    the cubes there were are still there, in order, each with its shape,
    colour, opacity, base height and spawn time, followed by the cubes
    spawned since. *)
Theorem X10_cubes_persist (events : list Event) (st : Scene) :
  exists added,
    map cube_identity (spawnedCubes (exec events st))
    = map cube_identity (spawnedCubes st) ++ added.
Proof.
  revert st. unfold exec, run.
  induction events as [| e events IH]; intros st.
  - exists []. rewrite app_nil_r. reflexivity.
  - cbn [fold_left].
    destruct (IH (next st e)) as (later & Hlater).
    destruct (step_cubes st e) as (added & Hadded).
    exists (added ++ later). unfold next in *.
    rewrite Hlater, Hadded, app_assoc. reflexivity.
Qed.

(** X11. A frame only reads the input state: the pointer session's
    [isHolding], start time and anchor, the spacebar and arrow flags, the
    committed colour, the channel hold states and the display handle are
    the same after it. *)
Theorem X11_frame_reads_inputs (time delta now : Q) (st : Scene) :
  same_input_state st (frame time delta now st).
Proof.
  apply (useFrame_effect distanceTo setFromVector3 setFromSpherical Math_sin).
Qed.

End Reachable.

(** X12. A pointer-up that is not a primary-button release of an active
    session changes nothing, and after a primary-button pointer-up any
    further pointer-up changes nothing: one press spawns at most one
    cube. *)
Theorem X12_mouseUp_once (button : Z) (t1 t2 : Q) (st : Scene) :
  (isHolding st = false -> handleMouseUp button t1 st = st) /\
  ((button =? 0)%Z = false -> handleMouseUp button t1 st = st) /\
  handleMouseUp button t2 (handleMouseUp 0 t1 st) = handleMouseUp 0 t1 st.
Proof.
  split; [| split].
  - intros Hup. unfold handleMouseUp. rewrite Hup, orb_true_r. reflexivity.
  - intros Hb. unfold handleMouseUp. rewrite Hb. reflexivity.
  - destruct (handleMouseUp_effect 0 t1 st) as (_ & _ & _ & _ & E).
    cbn [Z.eqb andb] in E.
    destruct (isHolding st) eqn:Hheld.
    + unfold handleMouseUp at 1. rewrite E, orb_true_r. reflexivity.
    + rewrite E. unfold handleMouseUp. rewrite Hheld, orb_true_r.
      reflexivity.
Qed.

(** ** The preview against the committed cube *)

Lemma geometry_eq_refl (s : Geometry) : geometry_eq s s.
Proof. destruct s; cbn; repeat split; reflexivity. Qed.

(** The mesh [spawnCube] adds. *)
Lemma spawnCube_mesh (p : Vector3) (size roundness now : Q) (st : Scene) :
  exists cube,
    spawnedCubes (spawnCube p size roundness now st)
    = spawnedCubes st ++ [cube] /\
    geometry cube =
      (if Qlt_le_dec 0 roundness
       then RoundedBoxGeometry size size size 8 (Qmin roundness (size / 2))
       else BoxGeometry size size size) /\
    position cube = mkVector3 (x p) (y p + size / 2) (z p).
Proof. unfold spawnCube. eexists. repeat split. Qed.

(** The mesh the preview step leaves during a session. *)
Lemma useFrame_preview_mesh (now : Q) (st : Scene) (p : Vector3) :
  isHolding st = true ->
  holdStartPosition st = Some p ->
  let d := now - holdStartTime st in
  let size := useFrame_currentSize d in
  let roundness :=
    useFrame_currentRoundness (isSpacebarHeld st)
                              (maxRoundnessAchieved st) d in
  exists preview,
    previewRef (useFrame_preview now st) = Some preview /\
    geometry preview =
      (if Qlt_le_dec 0 roundness
       then RoundedBoxGeometry size size size 8 (Qmin roundness (size / 2))
       else BoxGeometry size size size) /\
    position preview = mkVector3 (x p) (y p + size / 2) (z p) /\
    color preview = (inject_Z (r (globalRGB st)) / 255,
                     inject_Z (g (globalRGB st)) / 255,
                     inject_Z (b (globalRGB st)) / 255) /\
    opacity preview = inject_Z (a (globalRGB st)) / 255 * 0.5.
Proof.
  intros Hheld Hp d size roundness. subst d size roundness.
  unfold useFrame_preview. rewrite Hheld, Hp.
  destruct (isSpacebarHeld st); cbn; eexists; repeat split.
Qed.

Section Preview.

Variable distanceTo : Vector3 -> Vector3 -> Q.
Variable setFromVector3 : Vector3 -> Spherical.
Variable setFromSpherical : Spherical -> Vector3.
Variable Math_sin : Q -> Q.

Let frame := useFrame distanceTo setFromVector3 setFromSpherical Math_sin.
Let exec := run distanceTo setFromVector3 setFromSpherical Math_sin.

(** X13. In a session reached from the initial scene by events in clock
    order, the preview a frame builds has the shape and the place of the
    cube a release at the same instant commits: the same shape class
    with the same size, segment count and corner radius, at the same
    position. *)
Theorem X13_preview_is_the_cube (events : list Event) (time delta now : Q) :
  let st := exec events initialScene in
  let st' := frame time delta now st in
  chronological 0 events ->
  last_time 0 events <= now ->
  isHolding st = true ->
  exists preview cube,
    previewRef st' = Some preview /\
    spawnedCubes (handleMouseUp 0 now st') = spawnedCubes st' ++ [cube] /\
    geometry_eq (geometry cube) (geometry preview) /\
    position cube = position preview.
Proof.
  intros st st' Hchron Hnow Hheld.
  pose proof (reachable_ok distanceTo setFromVector3 setFromSpherical
                           Math_sin events Hchron) as Hok.
  fold exec in Hok. fold st in Hok.
  destruct (scene_ok_later _ now st Hok Hnow)
    as (_ & _ & _ & _ & _ & Hsess).
  destruct (Hsess Hheld) as (Hanchor & Hstart & Hround).
  destruct (holdStartPosition st) as [p |] eqn:Hp; [| contradiction].
  (* the state the preview step starts from *)
  set (b := before_preview distanceTo setFromVector3 setFromSpherical
                           Math_sin time delta now st).
  destruct (before_preview_inputs distanceTo setFromVector3 setFromSpherical
                                  Math_sin time delta now st)
    as (B1 & B2 & B3 & B4 & B5 & B6 & _).
  fold b in B1, B2, B3, B4, B5, B6.
  assert (Hb : isHolding b = true) by (rewrite B1; exact Hheld).
  assert (Hbp : holdStartPosition b = Some p) by (rewrite B3; exact Hp).
  destruct (useFrame_preview_mesh now b p Hb Hbp)
    as (preview & Hprev & Hshape & Hpos & _).
  rewrite ?B2, ?B4, ?B5, ?B6 in Hshape.
  rewrite ?B2, ?B4, ?B5, ?B6 in Hpos.
  change (useFrame_preview now b) with st' in Hprev.
  (* the state after the frame *)
  destruct (useFrame_effect distanceTo setFromVector3 setFromSpherical
                            Math_sin time delta now st)
    as ((E1 & E2 & E3 & _ & _ & E6 & _) & _ & Em & _).
  fold frame in E1, E2, E3, E6, Em. fold st' in E1, E2, E3, E6, Em.
  rewrite Hheld, Hp in Em.
  assert (Hheld' : isHolding st' = true) by (rewrite E1; exact Hheld).
  assert (Hp' : holdStartPosition st' = Some p) by (rewrite E3; exact Hp).
  rewrite (handleMouseUp_session now st' p Hheld' Hp').
  destruct (spawnCube_mesh p (handleMouseUp_size (now - holdStartTime st'))
                           (maxRoundnessAchieved st') now
                           (set_isHolding false st'))
    as (cube & Hcubes & Cshape & Cpos).
  rewrite ?E2 in Cshape. rewrite ?E2 in Cpos.
  exists preview, cube.
  split; [exact Hprev |]. split; [exact Hcubes |].
  split.
  - rewrite Cshape, Hshape, Em.
    change (handleMouseUp_size (now - holdStartTime st))
      with (useFrame_currentSize (now - holdStartTime st)).
    set (size := useFrame_currentSize (now - holdStartTime st)).
    destruct (isSpacebarHeld st); [| apply geometry_eq_refl].
    rewrite currentRoundness_held.
    set (cur := roundness_at (now - holdStartTime st)) in *.
    assert (Hmax : Qmax (maxRoundnessAchieved st) cur == cur)
      by (apply Q.max_r; exact Hround).
    destruct (Qlt_le_dec 0 (Qmax (maxRoundnessAchieved st) cur)) as [H1 | H1],
             (Qlt_le_dec 0 cur) as [H2 | H2]; cbn [geometry_eq].
    + repeat split; try reflexivity.
      apply Qle_antisym; apply Q.min_le_compat_r;
        rewrite Hmax; apply Qle_refl.
    + rewrite Hmax in H1. lra.
    + rewrite Hmax in H1. lra.
    + repeat split; reflexivity.
  - rewrite Cpos, Hpos. reflexivity.
Qed.

(** X14. The cubes after a frame depend on that frame's clock alone, not
    on the frames before it; and with a sine within [-1, 1] every cube
    bobs within 20 units of its base height. *)
Theorem X14_animation (time time' delta delta' now now' : Q) (st : Scene) :
  spawnedCubes (frame time' delta' now' (frame time delta now st))
  = spawnedCubes (frame time' delta' now' st) /\
  ((forall t, -1 <= Math_sin t <= 1) ->
   forall cube,
     In cube (spawnedCubes (frame time delta now st)) ->
     baseY cube - 20 <= y (position cube) <= baseY cube + 20).
Proof.
  assert (Hcubes : forall time delta now st,
             spawnedCubes (frame time delta now st)
             = map (animateCube Math_sin time) (spawnedCubes st)).
  { intros. apply (useFrame_effect distanceTo setFromVector3
                                   setFromSpherical Math_sin). }
  split.
  - rewrite !Hcubes, map_map. apply map_ext. intros cube. reflexivity.
  - intros Hsin cube Hin. rewrite Hcubes in Hin.
    apply in_map_iff in Hin as (cube0 & <- & _). cbn.
    specialize (Hsin (time - spawnTime cube0)). lra.
Qed.

End Preview.

(** ** The colour display *)

(** X15. The display shows committed values for channels that are not
    held, stays within 0..255 when the colour is and no hold started
    after the clock reading, and leaves the pills alone when the display
    element is missing; a missing pill stays missing. *)
Theorem X15_display (rgb : RGB) (holds : KeyHoldState) (pills : Pills)
  (now : Q) :
  (forall k, Channel.isHolding (get_hold k holds) = false ->
             get_channel k (previewRGB rgb holds now) = get_channel k rgb) /\
  (rgb_in_range rgb ->
   (forall k, Channel.startTime (get_hold k holds) <= now) ->
   rgb_in_range (previewRGB rgb holds now)) /\
  updateRGBDisplay false pills rgb holds now = pills /\
  (forall shown,
      updateRGBDisplay shown (mkPills None None None None) rgb holds now
      = mkPills None None None None).
Proof.
  split; [| split; [| split]].
  - intros k Hup. rewrite previewRGB_channel, Hup. reflexivity.
  - intros Hrgb Hstart.
    assert (Hk : forall k,
               (0 <= get_channel k (previewRGB rgb holds now) < 256)%Z).
    { intros k. rewrite previewRGB_channel.
      pose proof (channel_in_range k rgb Hrgb) as Hv.
      destruct (Channel.isHolding (get_hold k holds)); [| exact Hv].
      apply Z.rem_bound_pos; [| lia].
      assert (0 <= colorChange
                     (now - Channel.startTime (get_hold k holds)))%Z
        by (apply colorChange_nonneg; specialize (Hstart k); lra).
      lia. }
    unfold rgb_in_range.
    split; [exact (Hk Channel.K1) |]. split; [exact (Hk Channel.K2) |].
    split; [exact (Hk Channel.K3) | exact (Hk Channel.K4)].
  - reflexivity.
  - intros shown. destruct shown; reflexivity.
Qed.

(** ** Camera orbit: the azimuth *)

Lemma useFrame_spherical_theta (keys : ArrowKeys) (delta : Q)
  (s : Spherical) :
  theta (useFrame_spherical keys delta s)
  == theta s + azimuth_turn (keys, delta).
Proof.
  unfold useFrame_spherical, azimuth_turn. cbn [fst snd].
  destruct (left keys), (right keys), (up keys), (down keys); cbn; ring.
Qed.

Lemma useFrame_spherical_phi (keys : ArrowKeys) (delta : Q) (s : Spherical) :
  up keys = false -> down keys = false ->
  phi (useFrame_spherical keys delta s) = phi s.
Proof.
  intros Hup Hdown. unfold useFrame_spherical. rewrite Hup, Hdown.
  destruct (left keys), (right keys); reflexivity.
Qed.

(** X16. Within one camera update the azimuth written back is the
    azimuth read plus 1.2 times the frame delta for right and minus the
    same for left, with no limit applied: the two cancel when both are
    active; without left and right the azimuth is written back as read,
    and without up and down so is the polar angle. *)
Theorem X16_azimuth (keys : ArrowKeys) (delta : Q) (s : Spherical) :
  theta (useFrame_spherical keys delta s)
  == theta s + azimuth_turn (keys, delta) /\
  (left keys = true -> right keys = true ->
   theta (useFrame_spherical keys delta s) == theta s) /\
  (left keys = false -> right keys = false ->
   theta (useFrame_spherical keys delta s) = theta s) /\
  (up keys = false -> down keys = false ->
   phi (useFrame_spherical keys delta s) = phi s).
Proof.
  split; [apply useFrame_spherical_theta |].
  split; [| split].
  - intros Hleft Hright. rewrite useFrame_spherical_theta.
    unfold azimuth_turn. cbn [fst snd]. rewrite Hleft, Hright. ring.
  - intros Hleft Hright. unfold useFrame_spherical.
    rewrite Hleft, Hright. destruct (up keys), (down keys); reflexivity.
  - apply useFrame_spherical_phi.
Qed.

(** ** Audio volume, piece by piece *)

Lemma clamp_inside (v lo hi : Q) :
  lo <= v -> v <= hi -> Qmax lo (Qmin hi v) == v.
Proof.
  intros Hlo Hhi. apply Qle_antisym.
  - apply Q.max_lub; [exact Hlo | apply Q.le_min_r].
  - eapply Qle_trans; [| apply Q.le_max_r].
    apply Q.min_glb; [exact Hhi | apply Qle_refl].
Qed.

(** X17. Between the distances 40 and 2680/3 (about 893.3) the volume
    falls linearly, [1 - 0.9 * (distance - 40) / 960]; from 2680/3 on it
    is the floor 0.2, which is reached before the nominal maximum
    distance 1000. *)
Theorem X17_volume_pieces (d : Q) :
  (40 <= d -> d <= 2680 / 3 ->
   useFrame_volume d == 1 - 0.9 * (d - 40) / 960) /\
  (2680 / 3 <= d -> useFrame_volume d == 0.2).
Proof.
  unfold useFrame_volume.
  set (n := (d - 40) / (1000 - 40)).
  split.
  - intros Hlo Hhi.
    assert (Hn : 0 <= n /\ n <= 8 / 9) by (subst n; split; qlra).
    destruct Hn as [Hn0 Hn1].
    assert (Hc : Qmax 0 (Qmin 1 n) == n) by (apply clamp_inside; qlra).
    set (c := Qmax 0 (Qmin 1 n)) in *.
    rewrite clamp_inside by qlra.
    subst n. qlra.
  - intros Hd.
    assert (Hn : 8 / 9 <= n) by (subst n; qlra).
    assert (Hc : 8 / 9 <= Qmax 0 (Qmin 1 n)).
    { eapply Qle_trans; [| apply Q.le_max_r].
      apply Q.min_glb; [qlra | exact Hn]. }
    set (c := Qmax 0 (Qmin 1 n)) in *.
    apply Q.max_l.
    eapply Qle_trans; [apply Q.le_min_r |]. qlra.
Qed.

(** ** Colour: the preview against the commit *)

(** X18. While a channel key is held, the value a frame previews at a
    clock reading is the value a release at that reading commits. *)
Theorem X18_preview_is_the_commit (key : string) (k : Channel.Key) (now : Q)
  (st : Scene) :
  Channel.of_key key = Some k ->
  Channel.isHolding (get_hold k (keyHoldState st)) = true ->
  get_channel k (globalRGB (handleKeyUp key now st))
  = get_channel k (previewRGB (globalRGB st) (keyHoldState st) now).
Proof.
  intros Hk Hheld.
  destruct (handleKeyUp_channel key k now st Hk) as [Hc _].
  rewrite Hc, previewRGB_channel, Hheld. reflexivity.
Qed.

(** ** The further statements on concrete data *)

Ltac in_clock_order := vm_compute; repeat split; discriminate.

(** 1500 ms into the session of [demo_reached], spacebar held since
    before it, a frame at 750 ms behind it: the next frame raises
    [maxRoundnessAchieved] to the maximum with its own roundness, and a
    release commits one rounded cube whose corner radius is the
    [maxRoundnessAchieved] of that instant, 65/32. *)
Lemma C2_hold_roundness_witness :
  isSpacebarHeld demo_reached = true /\
  holdStartTime demo_reached <= 2500 /\
  maxRoundnessAchieved demo_reached == 65 # 32 /\
  maxRoundnessAchieved
    (useFrame demo_distanceTo demo_setFromVector3 demo_setFromSpherical
              demo_sin 1 (1 # 60) 2500 demo_reached)
  = Qmax (maxRoundnessAchieved demo_reached)
         (useFrame_currentRoundness true (maxRoundnessAchieved demo_reached)
                                    (2500 - holdStartTime demo_reached)) /\
  exists cube,
    spawnedCubes (handleMouseUp 0 2500 demo_reached)
    = spawnedCubes demo_reached ++ [cube] /\
    geometry_radius (geometry cube) == 65 # 32.
Proof.
  assert (Hnow : holdStartTime demo_reached <= 2500) by by_evaluation.
  assert (Hchron : chronological 0 demo_events) by in_clock_order.
  assert (Hlast : last_time 0 demo_events <= 2500) by by_evaluation.
  assert (Hvalue : maxRoundnessAchieved demo_reached == 65 # 32)
    by reflexivity.
  destruct (C2_hold_roundness demo_distanceTo demo_setFromVector3
                              demo_setFromSpherical demo_sin 1 (1 # 60)
                              2500 demo_reached (mkVector3 12 0 (-7))
                              eq_refl eq_refl Hnow)
    as (_ & Hheld & _ & cube & Hcubes & _ & _ & Hradius).
  split; [reflexivity |]. split; [exact Hnow |]. split; [exact Hvalue |].
  split; [exact (proj2 (proj2 (Hheld eq_refl))) |].
  exists cube. split; [exact Hcubes |].
  assert (Hreached :
    demo_reached
    = run demo_distanceTo demo_setFromVector3 demo_setFromSpherical demo_sin
          demo_events initialScene)
    by (unfold demo_reached; reflexivity).
  exact (Qeq_trans _ _ _ (Hradius demo_events Hreached Hchron Hlast) Hvalue).
Defined.

Lemma X1_other_keys_ignored_witness :
  handleKeyDown "x" 5 initialScene = initialScene /\
  handleKeyUp "x" 5 initialScene = initialScene.
Proof. exact (X1_other_keys_ignored "x" 5 initialScene eq_refl). Defined.

Lemma X2_flag_keys_witness :
  handleKeyDown "ArrowUp" 2 (handleKeyDown "ArrowUp" 1 initialScene)
  = handleKeyDown "ArrowUp" 1 initialScene.
Proof.
  exact (proj1 (X2_flag_keys "ArrowUp" 1 2 initialScene
                             (or_introl eq_refl))).
Defined.

Lemma X3_keyUp_frame_witness :
  get_channel Channel.K2 (globalRGB (handleKeyUp "1" 3000 initialScene))
  = get_channel Channel.K2 (globalRGB initialScene).
Proof.
  assert (Hne : Channel.K2 <> Channel.K1) by discriminate.
  exact (proj1 (X3_keyUp_frame "1" Channel.K1 Channel.K2 3000 initialScene
                               eq_refl Hne)).
Defined.

Lemma X4_short_tap_witness :
  get_channel Channel.K1
    (globalRGB (handleKeyUp "1" 10 (handleKeyDown "1" 0 initialScene)))
  = 255%Z.
Proof.
  assert (Hv : (0 <= 255 < 256)%Z) by by_evaluation.
  assert (H01 : 0 <= 10) by by_evaluation.
  assert (Hshort : 10 <= 0 + 11) by by_evaluation.
  exact (proj2 (proj1 (X4_short_tap "1" Channel.K1 0 10 initialScene
                                    eq_refl eq_refl Hv H01)
                      Hshort)).
Defined.

Lemma X5_colour_in_range_witness :
  rgb_in_range
    (globalRGB (run demo_distanceTo demo_setFromVector3
                    demo_setFromSpherical demo_sin
                    (demo_events ++ [KeyDown "2" 1800; KeyUp "2" 9000])
                    initialScene)).
Proof.
  assert (Hchron :
    chronological 0 (demo_events ++ [KeyDown "2" 1800; KeyUp "2" 9000]))
    by in_clock_order.
  exact (X5_colour_in_range demo_distanceTo demo_setFromVector3
                            demo_setFromSpherical demo_sin _ Hchron).
Defined.

Lemma X6_unmatched_keyUp_witness :
  get_channel Channel.K1
    (globalRGB
       (handleKeyUp "1" 3000
          (run demo_distanceTo demo_setFromVector3 demo_setFromSpherical
               demo_sin demo_events initialScene)))
  = ((255 + colorChange 3000) mod 256)%Z.
Proof.
  assert (Hchron : chronological 0 demo_events) by in_clock_order.
  assert (Hnow : last_time 0 demo_events <= 3000) by by_evaluation.
  exact (proj1 (proj2
           (X6_unmatched_keyUp demo_distanceTo demo_setFromVector3
                               demo_setFromSpherical demo_sin demo_events
                               "1" Channel.K1 3000 Hchron Hnow
                               eq_refl eq_refl))).
Defined.

Lemma X7_radius_uncut_witness :
  Qmin (maxRoundnessAchieved demo_reached)
       (handleMouseUp_size (2500 - holdStartTime demo_reached) / 2)
  == maxRoundnessAchieved demo_reached.
Proof.
  assert (Hchron : chronological 0 demo_events) by in_clock_order.
  assert (Hnow : last_time 0 demo_events <= 2500) by by_evaluation.
  exact (proj1 (proj2
           (X7_radius_uncut demo_distanceTo demo_setFromVector3
                            demo_setFromSpherical demo_sin demo_events 2500
                            Hchron Hnow eq_refl))).
Defined.

Lemma X8_preview_iff_holding_witness :
  exists preview,
    previewRef
      (run demo_distanceTo demo_setFromVector3 demo_setFromSpherical
           demo_sin (demo_events ++ [Frame 2 (1 # 60) 2000]) initialScene)
    = Some preview.
Proof.
  exact (proj1 (X8_preview_iff_holding demo_distanceTo demo_setFromVector3
                                       demo_setFromSpherical demo_sin
                                       demo_events 2 (1 # 60) 2000)
               eq_refl).
Defined.

Lemma X9_roundness_monotone_witness :
  maxRoundnessAchieved demo_session
  <= maxRoundnessAchieved
       (step demo_distanceTo demo_setFromVector3 demo_setFromSpherical
             demo_sin demo_session (Frame 1 (1 # 60) 2500)).
Proof.
  exact (proj1 (X9_roundness_monotone demo_distanceTo demo_setFromVector3
                                      demo_setFromSpherical demo_sin
                                      demo_session (Frame 1 (1 # 60) 2500))
               eq_refl).
Defined.

Lemma X12_mouseUp_once_witness : handleMouseUp 0 1 initialScene = initialScene.
Proof. exact (proj1 (X12_mouseUp_once 0 1 2 initialScene) eq_refl). Defined.

Lemma X13_preview_is_the_cube_witness :
  exists preview cube,
    previewRef
      (useFrame demo_distanceTo demo_setFromVector3 demo_setFromSpherical
                demo_sin 2 (1 # 60) 2500 demo_reached)
    = Some preview /\
    spawnedCubes
      (handleMouseUp 0 2500
         (useFrame demo_distanceTo demo_setFromVector3 demo_setFromSpherical
                   demo_sin 2 (1 # 60) 2500 demo_reached))
    = spawnedCubes
        (useFrame demo_distanceTo demo_setFromVector3 demo_setFromSpherical
                  demo_sin 2 (1 # 60) 2500 demo_reached) ++ [cube] /\
    geometry_eq (geometry cube) (geometry preview) /\
    position cube = position preview.
Proof.
  assert (Hchron : chronological 0 demo_events) by in_clock_order.
  assert (Hnow : last_time 0 demo_events <= 2500) by by_evaluation.
  exact (X13_preview_is_the_cube demo_distanceTo demo_setFromVector3
                                 demo_setFromSpherical demo_sin demo_events
                                 2 (1 # 60) 2500 Hchron Hnow eq_refl).
Defined.

Lemma X14_animation_witness :
  Forall (fun cube => baseY cube - 20 <= y (position cube) <= baseY cube + 20)
         (spawnedCubes
            (useFrame demo_distanceTo demo_setFromVector3
                      demo_setFromSpherical demo_sin 3 (1 # 60) 3000
                      (handleMouseUp 0 2500 demo_session))).
Proof.
  assert (Hsin : forall t, -1 <= demo_sin t <= 1)
    by (intros t; unfold demo_sin; split; discriminate).
  apply Forall_forall.
  exact (proj2 (X14_animation demo_distanceTo demo_setFromVector3
                              demo_setFromSpherical demo_sin
                              3 3 (1 # 60) (1 # 60) 3000 3000
                              (handleMouseUp 0 2500 demo_session))
               Hsin).
Defined.

Lemma X15_display_witness :
  get_channel Channel.K1
    (previewRGB (globalRGB initialScene) (keyHoldState initialScene) 1500)
  = 255%Z.
Proof.
  exact (proj1 (X15_display (globalRGB initialScene)
                            (keyHoldState initialScene)
                            (rgbPills initialScene) 1500)
               Channel.K1 eq_refl).
Defined.

Lemma X16_azimuth_witness :
  theta (useFrame_spherical (mkArrowKeys true false true true) (1 # 60)
                            (mkSpherical 206 1.3 0.15))
  == 0.15.
Proof.
  exact (proj1 (proj2 (X16_azimuth (mkArrowKeys true false true true)
                                   (1 # 60) (mkSpherical 206 1.3 0.15)))
               eq_refl eq_refl).
Defined.

Lemma X17_volume_pieces_witness :
  useFrame_volume 520 == 1 - 0.9 * (520 - 40) / 960.
Proof.
  assert (Hlo : 40 <= 520) by by_evaluation.
  assert (Hhi : 520 <= 2680 / 3) by by_evaluation.
  exact (proj1 (X17_volume_pieces 520) Hlo Hhi).
Defined.

Lemma X18_preview_is_the_commit_witness :
  get_channel Channel.K1
    (globalRGB (handleKeyUp "1" 1500 (handleKeyDown "1" 0 initialScene)))
  = get_channel Channel.K1
      (previewRGB (globalRGB (handleKeyDown "1" 0 initialScene))
                  (keyHoldState (handleKeyDown "1" 0 initialScene)) 1500).
Proof.
  exact (X18_preview_is_the_commit "1" Channel.K1 1500
                                   (handleKeyDown "1" 0 initialScene)
                                   eq_refl eq_refl).
Defined.
